(** * Wallet controller of btc-staker: a shallow embedding

    Embeds [walletcontroller/client.go] (the RPC wallet controller) and
    [walletcontroller/interface.go] (the [TxStatus] enum and the
    [WalletController] interface).

    - Go integers are [Z]; byte slices are [list byte]; a nilable pointer or
      interface value is an [option]; a Go multi-value return is a tuple whose
      last component is the [error] (with [None] for [nil]).
    - Every call the controller makes on its embedded [rpcclient.Client]
      is a node of a free monad [Rpc]; running a program against a backend
      yields its outcome together with the trace of requests it issued.
    - A Go [panic] is the [Crash] node: it returns nothing to the caller. *)

From Stdlib Require Import ZArith Lia.
From stdpp Require Import base list strings sorting.

Set Implicit Arguments.
Local Open Scope Z_scope.

(** ** Wire data (btcd [wire], [chainhash], [btcjson]) *)

Definition bytes := list Byte.byte.

(** [chainhash.Hash] is 32 bytes; it is kept as the 256-bit number it
    encodes. *)
Definition Hash := Z.

Record OutPoint := mkOutPoint {
  op_Hash : Hash;
  op_Index : Z                       (* uint32 *)
}.

Definition TxWitness := list bytes.

Record TxIn := mkTxIn {
  PreviousOutPoint : OutPoint;
  SignatureScript : bytes;
  Witness : TxWitness;
  Sequence : Z
}.

Record TxOut := mkTxOut {
  Value : Z;                      (* int64, satoshi *)
  PkScript : bytes
}.

Record MsgTx := mkMsgTx {
  Version : Z;
  tx_TxIn : list TxIn;
  tx_TxOut : list TxOut;
  LockTime : Z
}.

(** [btcjson.RawTxWitnessInput]; [Amount] is a [*float64], of which the
    controller only ever builds the constant [0]. *)
Inductive amount_hint := AmountNil | AmountZero.

Record RawTxWitnessInput := mkRawTxWitnessInput {
  Txid : string;
  Vout : Z;
  ScriptPubKey : string;
  Amount : amount_hint
}.

(** ** Errors

    [fmt.Errorf] without a [%w] verb yields a plain message; with [%w] it
    wraps its cause.  Errors made by the backend or by a library are opaque
    to the controller and are carried as [External]. *)
Inductive error :=
| Errorf (msg : string)
| ErrorfW (msg : string) (cause : error)
| External (descr : string)
| NoUsableFunds
| InsufficientFunds.

(** ** [TxStatus] (interface.go) and [notifier.TxConfStatus] (lnd) *)

Inductive TxStatus := TxNotFound | TxInMemPool | TxInChain.

(** The [iota] numbering of the enum. *)
Definition TxStatus_value (s : TxStatus) : Z :=
  match s with TxNotFound => 0 | TxInMemPool => 1 | TxInChain => 2 end.

(** [chainntnfs.TxConfStatus] is a [uint8]; the library names five of its
    values, in this [iota] order. *)
Definition TxConfStatus := Z.
Definition TxFoundMempool : TxConfStatus := 0.
Definition TxFoundIndex : TxConfStatus := 1.
Definition TxNotFoundIndex : TxConfStatus := 2.
Definition TxFoundManually : TxConfStatus := 3.
Definition TxNotFoundManually : TxConfStatus := 4.

(** ** Panics *)

Inductive panic :=
| PanicUnknownNotifierState (state : TxConfStatus)
    (* panic(fmt.Sprintf("unknown notifier state: %s", state)) *)
| PanicIndexOutOfRange (index : Z) (len : nat)
| PanicNilDereference.

(** A function that either returns a value or panics. *)
Inductive outcome (A : Type) :=
| Returned (a : A)
| Panicked (p : panic).
Arguments Panicked {A} p.

(** ** Backend requests

    One constructor per [rpcclient.Client] entry point the controller
    reaches; [notifier.ConfDetailsFromTxIndex] takes the client and is the
    one place where the confirmation lookup talks to the backend. *)

Record ListUnspentResult := mkListUnspentResult {
  lr_TxID : Hash;
  lr_Vout : Z;
  lr_ScriptPubKey : bytes;
  lr_Amount : Z;                  (* value, in satoshi *)
  lr_Confirmations : Z;
  lr_Spendable : bool
}.

Record ConfRequest := mkConfRequest {
  cr_TxID : option Hash;
  cr_PkScript : bytes
}.

Record TxConfirmation := mkTxConfirmation {
  BlockHash : Hash;
  BlockHeight : Z;
  TxIndex : Z
}.

Inductive Request :=
| ReqWalletPassphrase (passphrase : string) (timeoutSecs : Z)
| ReqListUnspent
| ReqSignRawTransactionWithWallet (tx : option MsgTx)
| ReqSignRawTransaction (tx : option MsgTx)
| ReqSignRawTransactionWithWallet2 (tx : option MsgTx)
    (inputs : list RawTxWitnessInput)
| ReqSendRawTransaction (tx : option MsgTx) (allowHighFees : bool)
| ReqConfDetailsFromTxIndex (req : ConfRequest) (txNotFoundErr : string).

Definition Response (r : Request) : Type :=
  match r with
  | ReqWalletPassphrase _ _ => option error
  | ReqListUnspent => (list ListUnspentResult * option error)%type
  | ReqSignRawTransactionWithWallet _
  | ReqSignRawTransaction _
  | ReqSignRawTransactionWithWallet2 _ _ =>
      (option MsgTx * bool * option error)%type
  | ReqSendRawTransaction _ _ => (option Hash * option error)%type
  | ReqConfDetailsFromTxIndex _ _ =>
      (option TxConfirmation * TxConfStatus * option error)%type
  end.

(** ** The monad of controller methods *)

Inductive Rpc (A : Type) : Type :=
| Done (a : A)
| Crash (p : panic)
| Call (r : Request) (k : Response r -> Rpc A).
Arguments Crash {A} p.
Arguments Call {A} r k.

Fixpoint Rpc_bind {A B} (f : A -> Rpc B) (m : Rpc A) : Rpc B :=
  match m with
  | Done a => f a
  | Crash p => Crash p
  | Call r k => Call r (fun x => Rpc_bind f (k x))
  end.

#[global] Instance Rpc_ret : MRet Rpc := fun _ a => Done a.
#[global] Instance Rpc_mbind : MBind Rpc := fun _ _ f m => Rpc_bind f m.

Definition call (r : Request) : Rpc (Response r) := Call r (fun x => Done x).

(** *** Running a program against a backend

    A backend is any state type with a response function; it decides every
    answer and may change with every request. *)
Record Backend := mkBackend {
  World : Type;
  respond : forall r : Request, World -> Response r * World
}.

Record Run (B : Backend) (A : Type) := mkRun {
  result : outcome A;
  trace : list Request;
  final : World B
}.
Arguments mkRun {B A} result trace final.

Fixpoint exec {B : Backend} {A} (m : Rpc A) (w : World B) : Run B A :=
  match m with
  | Done a => mkRun (Returned a) [] w
  | Crash p => mkRun (Panicked p) [] w
  | Call r k =>
      let '(x, w') := respond B r w in
      let run := exec (k x) w' in
      mkRun (result run) (r :: trace run) (final run)
  end.

(** ** What the controller takes from elsewhere

    Library functions ([txscript], [bip322], [chainhash], [chainntnfs],
    [rpcclient]) and declarations of packages of this repository that are
    not part of the controller ([types], [stakercfg]) are parameters of the
    development.  The two constants of [types.SupportedWalletBackend] are
    distinct values of its integer type; [rpcclient.New] yields either a
    client or an error. *)

Record ConnConfig := mkConnConfig {
  Host : string;
  User : string;
  Pass : string;
  DisableTLS : bool;
  DisableConnectOnNew : bool;
  DisableAutoReconnect : bool;
  HTTPPostMode : bool;
  Certificates : bytes
}.

(** [chaincfg.Params], of which the controller reads [Name] only. *)
Record Params := mkParams {
  Name : string;
  Net : Z
}.

Definition SupportedWalletBackend := Z.

Class Env := {
  (* btcutil.Address: the non-nil values of the interface *)
  Address : Type;
  Address_String : Address -> string;
  (* types *)
  BitcoindWalletBackend : SupportedWalletBackend;
  BtcwalletWalletBackend : SupportedWalletBackend;
  backends_distinct : BitcoindWalletBackend <> BtcwalletWalletBackend;
  (* txscript *)
  PayToAddrScript : option Address -> bytes * option error;
  (* bip322 *)
  GetToSpendTx : bytes -> option Address -> option MsgTx * option error;
  GetToSignTx : MsgTx -> option MsgTx;
  (* wire, chainhash *)
  TxHash : MsgTx -> Hash;
  Hash_String : Hash -> string;
  (* chainntnfs *)
  NewConfRequest : option Hash -> bytes -> ConfRequest * option error;
  (* stakercfg, rpcclient *)
  ReadCertFile : string -> string -> bytes * option error;
  Client : Type;
  rpcclient_New : ConnConfig -> Client + error;
  (* fee policy of the transaction builder: estimated size in bytes of a
     transaction with that many inputs and outputs, and the dust threshold *)
  estimateSize : nat -> nat -> Z;
  dustThreshold : Z
}.

(** [hex.EncodeToString]: two lower-case digits per byte. *)
Definition hex_digit (n : N) : Ascii.ascii :=
  Ascii.ascii_of_N (if (n <? 10)%N then 48 + n else 87 + n)%N.

Fixpoint hex_EncodeToString (src : bytes) : string :=
  match src with
  | [] => EmptyString
  | b :: rest =>
      let n := Byte.to_N b in
      String (hex_digit (n / 16)%N)
        (String (hex_digit (n mod 16)%N) (hex_EncodeToString rest))
  end.

(** [txscript.IsPayToWitnessPubKeyHash]: a version-0 witness program of 20
    bytes, that is [OP_0 OP_DATA_20 <20 bytes>]. *)
Definition IsPayToWitnessPubKeyHash (script : bytes) : bool :=
  match script with
  | Byte.x00 :: Byte.x14 :: program => Nat.eqb (length program) 20
  | _ => false
  end.

(** ** UTXO selection and transaction building

    [CreateTransaction] is defined in client.go; the three helpers it calls,
    [resultsToUtxos], the [byAmount] ordering and [buildTxFromOutputs], are
    defined in [walletcontroller/transaction.go].  That file is not embedded
    here: the helpers are written after the specification of the selector
    and builder, with the size estimate and the dust threshold left as
    parameters. *)

(** Modelled from the spec: the [Utxo] record of the missing
    [walletcontroller/transaction.go], after the "Unspent Output" of the
    data model: outpoint, value, owning script, spendability flag,
    confirmation count. *)
Record Utxo := mkUtxo {
  utxo_Amount : Z;
  utxo_OutPoint : OutPoint;
  utxo_PkScript : bytes;
  utxo_Spendable : bool;
  utxo_Confirmations : Z
}.

Definition resultToUtxo (r : ListUnspentResult) : Utxo :=
  {| utxo_Amount := lr_Amount r;
     utxo_OutPoint := {| op_Hash := lr_TxID r; op_Index := lr_Vout r |};
     utxo_PkScript := lr_ScriptPubKey r;
     utxo_Spendable := lr_Spendable r;
     utxo_Confirmations := lr_Confirmations r |}.

(** Modelled from the spec: [resultsToUtxos] of the missing
    [walletcontroller/transaction.go]: "the live snapshot, optionally
    filtered to currently spendable entries". *)
Definition resultsToUtxos (results : list ListUnspentResult)
    (onlySpendable : bool) : list Utxo * option error :=
  (resultToUtxo <$>
     filter (fun r => onlySpendable = false \/ lr_Spendable r = true) results,
   None).

Definition OutPoint_ltb (a b : OutPoint) : bool :=
  (op_Hash a <? op_Hash b)
  || ((op_Hash a =? op_Hash b) && (op_Index a <? op_Index b)).

(** Modelled from the spec: [byAmount.Less] of the missing
    [walletcontroller/transaction.go]: the order by value, with the
    "deterministic tie-break by outpoint" among equal values. *)
Definition byAmount_Less (a b : Utxo) : bool :=
  (utxo_Amount a <? utxo_Amount b)
  || ((utxo_Amount a =? utxo_Amount b)
      && OutPoint_ltb (utxo_OutPoint a) (utxo_OutPoint b)).

(** [sort.Reverse] swaps the arguments of [Less]. *)
Definition sort_Reverse {A} (less : A -> A -> bool) : A -> A -> bool :=
  fun a b => less b a.

(** The order a sorted slice obeys: [a] may stand before [b] unless [b] is
    [Less] than [a]. *)
Definition not_after {A} (less : A -> A -> bool) : relation A :=
  fun a b => less b a = false.

#[global] Instance not_after_dec {A} (less : A -> A -> bool) (a b : A) :
  Decision (not_after less a b) := decide (less b a = false).

(** [sort.Sort] arranges the slice so that no element is [Less] than one
    before it. *)
Definition sort_Sort {A} (less : A -> A -> bool) (data : list A) : list A :=
  merge_sort (not_after less) data.

Section Controller.
Context `{env : Env}.

Definition totalValue (outputs : list TxOut) : Z :=
  foldr (fun o acc => Value o + acc) 0 outputs.

Definition totalAmount (utxos : list Utxo) : Z :=
  foldr (fun u acc => utxo_Amount u + acc) 0 utxos.

(** The fee rate is a value per 1000 bytes of estimated size. *)
Definition feeFor (feeRatePerKb : Z) (numInputs numOutputs : nat) : Z :=
  feeRatePerKb * estimateSize numInputs numOutputs / 1000.

(** Modelled from the spec: the input accumulation of the missing
    [buildTxFromOutputs]: "accumulate inputs until covered value >=
    requested value + fee, where fee is recomputed iteratively as the
    candidate input/output count changes estimated size".  The candidate
    transaction carries the requested outputs and one change output. *)
Fixpoint accumulate (requested feeRatePerKb : Z) (numOutputs : nat)
    (candidates selected : list Utxo) (covered : Z) : option (list Utxo) :=
  match candidates with
  | [] => None
  | u :: rest =>
      let selected' := selected ++ [u] in
      let covered' := covered + utxo_Amount u in
      if requested + feeFor feeRatePerKb (length selected') numOutputs
           <=? covered'
      then Some selected'
      else accumulate requested feeRatePerKb numOutputs rest selected' covered'
  end.

(** [wire.NewTxIn] on the outpoint of a selected output: no signature
    script, no witness, final sequence number. *)
Definition utxoToTxIn (u : Utxo) : TxIn :=
  {| PreviousOutPoint := utxo_OutPoint u;
     SignatureScript := [];
     Witness := [];
     Sequence := 4294967295 |}.

(** Modelled from the spec: the change rule of the missing
    [buildTxFromOutputs]: "append a change output for the remainder unless
    the remainder is below a dust threshold, in which case it is
    omitted". *)
Definition changeOutputs (remainder : Z) (changeScript : bytes) : list TxOut :=
  if remainder <? dustThreshold then []
  else [{| Value := remainder; PkScript := changeScript |}].

(** Modelled from the spec: [buildTxFromOutputs] of the missing
    [walletcontroller/transaction.go]: "Fails with NoUsableFunds if no
    eligible outputs exist; fails with InsufficientFunds if total available
    value cannot cover request + minimal fee.  Caller-supplied output order
    is preserved". *)
Definition buildTxFromOutputs (utxos : list Utxo) (outputs : list TxOut)
    (feeRatePerKb : Z) (changeScript : bytes) : option MsgTx * option error :=
  match utxos with
  | [] => (None, Some NoUsableFunds)
  | _ :: _ =>
      let requested := totalValue outputs in
      let numOutputs := S (length outputs) in
      match accumulate requested feeRatePerKb numOutputs utxos [] 0 with
      | None => (None, Some InsufficientFunds)
      | Some selected =>
          let fee := feeFor feeRatePerKb (length selected) numOutputs in
          let remainder := totalAmount selected - requested - fee in
          (Some {| Version := 1;
                   tx_TxIn := utxoToTxIn <$> selected;
                   tx_TxOut := outputs ++ changeOutputs remainder changeScript;
                   LockTime := 0 |},
           None)
      end
  end.

(** ** The controller (client.go) *)

Record RpcWalletController := mkRpcWalletController {
  rpc_Client : Client;
  walletPassphrase : string;
  network : string;
  backend : SupportedWalletBackend
}.

Definition txNotFoundErrMsgBtcd : string :=
  "No information available about transaction".
Definition txNotFoundErrMsgBitcoind : string :=
  "No such mempool or blockchain transaction".

Definition NewRpcWalletControllerFromArgs
    (host user pass network walletPassphrase : string)
    (nodeBackend : SupportedWalletBackend)
    (params : option Params)
    (disableTls : bool)
    (rawWalletCert walletCertFilePath : string)
  : outcome (option RpcWalletController * option error) :=
  let connCfg :=
    {| Host := host; User := user; Pass := pass;
       DisableTLS := disableTls;
       DisableConnectOnNew := true;
       DisableAutoReconnect := false;
       HTTPPostMode := true;
       Certificates := [] |} in
  let withCert : ConnConfig + error :=
    if negb (DisableTLS connCfg) then
      match ReadCertFile rawWalletCert walletCertFilePath with
      | (_, Some err) => inr err
      | (cert, None) =>
          inl {| Host := Host connCfg; User := User connCfg;
                 Pass := Pass connCfg;
                 DisableTLS := DisableTLS connCfg;
                 DisableConnectOnNew := DisableConnectOnNew connCfg;
                 DisableAutoReconnect := DisableAutoReconnect connCfg;
                 HTTPPostMode := HTTPPostMode connCfg;
                 Certificates := cert |}
      end
    else inl connCfg in
  match withCert with
  | inr err => Returned (None, Some err)
  | inl connCfg =>
      match rpcclient_New connCfg with
      | inr err => Returned (None, Some err)
      | inl rpcclient =>
          match params with
          | None => Panicked PanicNilDereference
          | Some p =>
              Returned
                (Some {| rpc_Client := rpcclient;
                         walletPassphrase := walletPassphrase;
                         network := Name p;
                         backend := nodeBackend |},
                 None)
          end
      end
  end.

Definition NetworkName (w : RpcWalletController) : string := network w.

Definition UnlockWallet (w : RpcWalletController) (timoutSec : Z)
  : Rpc (option error) :=
  call (ReqWalletPassphrase (walletPassphrase w) timoutSec).

Definition CreateTransaction (w : RpcWalletController)
    (outputs : list TxOut) (feeRatePerKb : Z) (changeAddres : option Address)
  : Rpc (option MsgTx * option error) :=
  '(utxoResults, err) ← call ReqListUnspent;
  match err with
  | Some e => mret (None, Some e)
  | None =>
      let '(utxos, err) := resultsToUtxos utxoResults true in
      match err with
      | Some e => mret (None, Some e)
      | None =>
          let utxos := sort_Sort (sort_Reverse byAmount_Less) utxos in
          let '(changeScript, err) := PayToAddrScript changeAddres in
          match err with
          | Some e => mret (None, Some e)
          | None =>
              let '(tx, err) :=
                buildTxFromOutputs utxos outputs feeRatePerKb changeScript in
              match err with
              | Some e => mret (None, Some e)
              | None => mret (tx, err)
              end
          end
      end
  end.

Definition SignRawTransaction (w : RpcWalletController) (tx : option MsgTx)
  : Rpc (option MsgTx * bool * option error) :=
  if backend w =? BitcoindWalletBackend then
    call (ReqSignRawTransactionWithWallet tx)
  else if backend w =? BtcwalletWalletBackend then
    call (ReqSignRawTransaction tx)
  else mret (None, false, Some (Errorf "invalid bitcoin backend")).

Definition CreateAndSignTx (w : RpcWalletController)
    (outputs : list TxOut) (feeRatePerKb : Z) (changeAddress : option Address)
  : Rpc (option MsgTx * option error) :=
  '(tx, err) ← CreateTransaction w outputs feeRatePerKb changeAddress;
  match err with
  | Some e => mret (None, Some e)
  | None =>
      '(fundedTx, signed, err) ← SignRawTransaction w tx;
      match err with
      | Some e => mret (None, Some e)
      | None =>
          if negb signed then
            mret (None,
                  Some (Errorf "not all transactions inputs could be signed"))
          else mret (fundedTx, None)
      end
  end.

Definition SendRawTransaction (w : RpcWalletController) (tx : option MsgTx)
    (allowHighFees : bool) : Rpc (option Hash * option error) :=
  call (ReqSendRawTransaction tx allowHighFees).

Definition ListOutputs (w : RpcWalletController) (onlySpendable : bool)
  : Rpc (list Utxo * option error) :=
  '(utxoResults, err) ← call ReqListUnspent;
  match err with
  | Some e => mret ([], Some e)
  | None =>
      let '(utxos, err) := resultsToUtxos utxoResults onlySpendable in
      match err with
      | Some e => mret ([], Some e)
      | None => mret (utxos, None)
      end
  end.

Definition nofitierStateToWalletState (state : TxConfStatus)
  : outcome TxStatus :=
  if state =? TxNotFoundIndex then Returned TxNotFound
  else if state =? TxFoundMempool then Returned TxInMemPool
  else if state =? TxFoundIndex then Returned TxInChain
  else if state =? TxNotFoundManually then Returned TxNotFound
  else if state =? TxFoundManually then Returned TxInChain
  else Panicked (PanicUnknownNotifierState state).

Definition getTxDetails (w : RpcWalletController) (req : ConfRequest)
    (msg : string) : Rpc (option TxConfirmation * TxStatus * option error) :=
  '(res, state, err) ← call (ReqConfDetailsFromTxIndex req msg);
  match err with
  | Some e => mret (None, TxNotFound, Some e)
  | None =>
      match nofitierStateToWalletState state with
      | Returned status => mret (res, status, None)
      | Panicked p => Crash p
      end
  end.

Definition TxDetails (w : RpcWalletController) (txHash : option Hash)
    (pkScript : bytes) : Rpc (option TxConfirmation * TxStatus * option error) :=
  let '(req, err) := NewConfRequest txHash pkScript in
  match err with
  | Some e => mret (None, TxNotFound, Some e)
  | None =>
      if backend w =? BitcoindWalletBackend then
        getTxDetails w req txNotFoundErrMsgBitcoind
      else if backend w =? BtcwalletWalletBackend then
        getTxDetails w req txNotFoundErrMsgBtcd
      else mret (None, TxNotFound, Some (Errorf "invalid bitcoin backend"))
  end.

(** [%s] applied to an address prints its [String()]; a nil interface
    prints as [%!s(<nil>)]. *)
Definition fmt_address (address : option Address) : string :=
  match address with
  | Some a => Address_String a
  | None => "%!s(<nil>)"
  end.

Definition SignBip322NativeSegwit (w : RpcWalletController) (msg : bytes)
    (address : option Address) : Rpc (option TxWitness * option error) :=
  let '(toSpend, err) := GetToSpendTx msg address in
  match err with
  | Some e => mret (None, Some (ErrorfW "failed to bip322 to spend tx: " e))
  | None =>
      match toSpend with
      | None => Crash PanicNilDereference
      | Some toSpend =>
          match tx_TxOut toSpend !! 0%nat with
          | None => Crash (PanicIndexOutOfRange 0 (length (tx_TxOut toSpend)))
          | Some out0 =>
              if negb (IsPayToWitnessPubKeyHash (PkScript out0)) then
                mret (None,
                      Some (Errorf
                        "Bip322NativeSegwit support only native segwit addresses"))
              else
                let toSpendhash := TxHash toSpend in
                let toSign := GetToSignTx toSpend in
                let amt := AmountZero in
                '(signed, all, err) ←
                  call (ReqSignRawTransactionWithWallet2 toSign
                    [ {| Txid := Hash_String toSpendhash;
                         Vout := 0;
                         ScriptPubKey := hex_EncodeToString (PkScript out0);
                         Amount := amt |} ]);
                match err with
                | Some e =>
                    mret (None,
                          Some (ErrorfW
                            "failed to sign raw transaction while creating bip322 signature: "
                            e))
                | None =>
                    if negb all then
                      mret (None,
                            Some (Errorf
                              ("failed to create bip322 signature, address "
                               +:+ fmt_address address
                               +:+ " is not under wallet control")))
                    else
                      match signed with
                      | None => Crash PanicNilDereference
                      | Some signed =>
                          match tx_TxIn signed !! 0%nat with
                          | None =>
                              Crash (PanicIndexOutOfRange 0
                                       (length (tx_TxIn signed)))
                          | Some in0 => mret (Some (Witness in0), None)
                          end
                      end
                end
          end
      end
  end.

(** ** Vocabulary of the properties *)

(** *** Errors the controller makes itself *)

Definition ErrInvalidBackend : error := Errorf "invalid bitcoin backend".

Definition ErrNotAllSigned : error :=
  Errorf "not all transactions inputs could be signed".

Definition ErrOnlyNativeSegwit : error :=
  Errorf "Bip322NativeSegwit support only native segwit addresses".

(** The one input hint handed to the signer. *)
Definition bip322Hint (toSpend : MsgTx) (out0 : TxOut) : RawTxWitnessInput :=
  {| Txid := Hash_String (TxHash toSpend);
     Vout := 0;
     ScriptPubKey := hex_EncodeToString (PkScript out0);
     Amount := AmountZero |}.

Definition ErrNotWalletControlled (address : option Address) : error :=
  Errorf ("failed to create bip322 signature, address "
          +:+ fmt_address address +:+ " is not under wallet control").

(** *** Candidates of the selection *)

Definition eligible (results : list ListUnspentResult) : list Utxo :=
  (resultsToUtxos results true).1.

Definition candidates (results : list ListUnspentResult) : list Utxo :=
  sort_Sort (sort_Reverse byAmount_Less) (eligible results).

(** Larger value first; among equal values, the outpoint decides. *)
Definition largestFirst (a b : Utxo) : Prop :=
  utxo_Amount b < utxo_Amount a
  \/ (utxo_Amount a = utxo_Amount b
      /\ OutPoint_ltb (utxo_OutPoint a) (utxo_OutPoint b) = false).

(** The outpoint identifies the record within a snapshot. *)
Definition outpointsIdentify (results : list ListUnspentResult) : Prop :=
  forall r1 r2, r1 ∈ results -> r2 ∈ results ->
    lr_TxID r1 = lr_TxID r2 -> lr_Vout r1 = lr_Vout r2 -> r1 = r2.

(** What [CreateTransaction] returns once the snapshot is known. *)
Definition built (results : list ListUnspentResult) (outputs : list TxOut)
    (feeRatePerKb : Z) (changeAddres : option Address)
  : option MsgTx * option error :=
  match PayToAddrScript changeAddres with
  | (_, Some e) => (None, Some e)
  | (changeScript, None) =>
      match buildTxFromOutputs (candidates results) outputs feeRatePerKb
              changeScript with
      | (_, Some e) => (None, Some e)
      | (tx, None) => (tx, None)
      end
  end.

(** The [k] first of [utxos] are worth the requested outputs and the fee of
    a transaction with [k] inputs, the requested outputs and one change
    output. *)
Definition covers (feeRatePerKb : Z) (outputs : list TxOut)
    (utxos : list Utxo) (k : nat) : Prop :=
  totalValue outputs + feeFor feeRatePerKb k (S (length outputs))
  <= totalAmount (take k utxos).

(** *** The receiver over the life of the controller

    The methods of the controller, with their arguments.  None of them
    assigns to a field of its receiver, the promoted [ImportPrivKey] of the
    embedded client included: after any call the receiver is as it was. *)
Inductive MethodCall :=
| MUnlockWallet (timoutSec : Z)
| MAddressPublicKey (address : option Address)
| MDumpPrivateKey (address : option Address)
| MImportPrivKey (privKeyWIF : string)
| MNetworkName
| MCreateTransaction (outputs : list TxOut) (feeRatePerKb : Z)
    (changeAddres : option Address)
| MSignRawTransaction (tx : option MsgTx)
| MCreateAndSignTx (outputs : list TxOut) (feeRatePerKb : Z)
    (changeAddress : option Address)
| MSendRawTransaction (tx : option MsgTx) (allowHighFees : bool)
| MListOutputs (onlySpendable : bool)
| MTxDetails (txHash : option Hash) (pkScript : bytes)
| MSignBip322NativeSegwit (msg : bytes) (address : option Address).

Definition receiverAfter (w : RpcWalletController) (m : MethodCall)
  : RpcWalletController :=
  match m with
  | MUnlockWallet _ => w
  | MAddressPublicKey _ => w
  | MDumpPrivateKey _ => w
  | MImportPrivKey _ => w
  | MNetworkName => w
  | MCreateTransaction _ _ _ => w
  | MSignRawTransaction _ => w
  | MCreateAndSignTx _ _ _ => w
  | MSendRawTransaction _ _ => w
  | MListOutputs _ => w
  | MTxDetails _ _ => w
  | MSignBip322NativeSegwit _ _ => w
  end.

Definition receiverAfterAll (w : RpcWalletController)
    (calls : list MethodCall) : RpcWalletController :=
  foldl receiverAfter w calls.

End Controller.

(** ** A sample environment and scripted backends

    Concrete parameters on which the properties are exercised: addresses
    are strings, ["bcrt1q"] pays to a witness key hash and any other
    address to a legacy key hash; sizes follow the usual estimate of 10
    bytes plus 148 per input and 34 per output; dust is below 546.  As in
    the libraries, [PayToAddrScript] and [GetToSpendTx] reject a nil
    address and [NewConfRequest] rejects a script of no known class, here
    the empty one. *)
Module Sample.

Definition witnessProgram : bytes := replicate 20 Byte.xab.

Definition scriptOf (a : string) : bytes :=
  if String.eqb a "bcrt1q" then Byte.x00 :: Byte.x14 :: witnessProgram
  else [Byte.x76; Byte.xa9; Byte.x14] ++ witnessProgram
       ++ [Byte.x88; Byte.xac].

Definition toSpendTx (a : string) : MsgTx :=
  {| Version := 0;
     tx_TxIn := [{| PreviousOutPoint := {| op_Hash := 0;
                                           op_Index := 4294967295 |};
                    SignatureScript := [Byte.x00; Byte.x20];
                    Witness := [];
                    Sequence := 0 |}];
     tx_TxOut := [{| Value := 0; PkScript := scriptOf a |}];
     LockTime := 0 |}.

Definition hashOf (tx : MsgTx) : Hash :=
  Z.of_nat (length (PkScript <$> tx_TxOut tx)) + 1000.

Definition toSignTx (toSpend : MsgTx) : MsgTx :=
  {| Version := 0;
     tx_TxIn := [{| PreviousOutPoint := {| op_Hash := hashOf toSpend;
                                           op_Index := 0 |};
                    SignatureScript := [];
                    Witness := [];
                    Sequence := 0 |}];
     tx_TxOut := [{| Value := 0; PkScript := [Byte.x6a] |}];
     LockTime := 0 |}.

#[export] Instance env : Env := {|
  Address := string;
  Address_String := fun a => a;
  BitcoindWalletBackend := 0;
  BtcwalletWalletBackend := 1;
  backends_distinct := proj1 (Z.eqb_neq 0 1) eq_refl;
  PayToAddrScript := fun a =>
    match a with
    | Some a => (scriptOf a, None)
    | None => ([], Some (External "unsupported address type"))
    end;
  GetToSpendTx := fun _ a =>
    match a with
    | Some a => (Some (toSpendTx a), None)
    | None => (None, Some (External "unsupported address type"))
    end;
  GetToSignTx := fun toSpend => Some (toSignTx toSpend);
  TxHash := hashOf;
  Hash_String := fun h => if h =? 1001 then "e903" else "0000";
  NewConfRequest := fun h script =>
    match script with
    | [] => ({| cr_TxID := None; cr_PkScript := [] |},
             Some (External "unsupported script type"))
    | _ => ({| cr_TxID := h; cr_PkScript := script |}, None)
    end;
  ReadCertFile := fun _ _ => ([], None);
  Client := unit;
  rpcclient_New := fun _ => inl tt;
  estimateSize := fun numInputs numOutputs =>
    10 + 148 * Z.of_nat numInputs + 34 * Z.of_nat numOutputs;
  dustThreshold := 546
|}.

(** A backend that answers every listing, signing and confirmation request
    with a fixed answer, accepts every passphrase and relays nothing. *)
Definition scripted
    (unspent : list ListUnspentResult * option error)
    (signed : option MsgTx * bool * option error)
    (confirmed : option TxConfirmation * TxConfStatus * option error)
  : Backend :=
  {| World := unit;
     respond := fun r _ =>
       (match r return Response r with
        | ReqWalletPassphrase _ _ => None
        | ReqListUnspent => unspent
        | ReqSignRawTransactionWithWallet _ => signed
        | ReqSignRawTransaction _ => signed
        | ReqSignRawTransactionWithWallet2 _ _ => signed
        | ReqSendRawTransaction _ _ => (None, Some (External "rejected"))
        | ReqConfDetailsFromTxIndex _ _ => confirmed
        end, tt) |}.

Definition unspentOf (txid amount : Z) (spendable : bool)
  : ListUnspentResult :=
  {| lr_TxID := txid; lr_Vout := 0; lr_ScriptPubKey := scriptOf "bcrt1q";
     lr_Amount := amount; lr_Confirmations := 3;
     lr_Spendable := spendable |}.

(** Two spendable outputs of 5000 and 3000 and a locked one of 9000. *)
Definition snapshot : list ListUnspentResult :=
  [unspentOf 11 3000 true; unspentOf 12 9000 false; unspentOf 13 5000 true].

Definition signedIn : TxIn :=
  {| PreviousOutPoint := {| op_Hash := 1001; op_Index := 0 |};
     SignatureScript := [];
     Witness := [[Byte.x30; Byte.x44]; [Byte.x02; Byte.x79]];
     Sequence := 0 |}.

Definition signedTx : MsgTx :=
  {| Version := 0;
     tx_TxIn := [signedIn];
     tx_TxOut := [{| Value := 0; PkScript := [Byte.x6a] |}];
     LockTime := 0 |}.

Definition controller (backend : SupportedWalletBackend)
  : RpcWalletController :=
  {| rpc_Client := tt; walletPassphrase := "pass"; network := "regtest";
     backend := backend |}.

Definition payment : list TxOut :=
  [{| Value := 4000; PkScript := scriptOf "legacy" |}].

End Sample.

(** * Further code: construction from the configuration, key access,
      request kinds, and the key seed of the integration test *)

(** ** Construction from the configuration (client.go) *)

(** The parts of [stakercfg.Config] the constructor reads. *)
Record WalletRpcConfig := mkWalletRpcConfig {
  wrc_Host : string;
  wrc_User : string;
  wrc_Pass : string;
  wrc_DisableTls : bool;
  wrc_RawRPCWalletCert : string;
  wrc_RPCWalletCert : string
}.

Record WalletConfig := mkWalletConfig {
  wc_WalletPass : string
}.

Record BtcNodeBackendConfig := mkBtcNodeBackendConfig {
  bnb_ActiveWalletBackend : SupportedWalletBackend
}.

(** The three groups are reached through pointers, each of which may be
    nil; the chain parameters are a field of the configuration itself,
    whose address the constructor takes. *)
Record Config := mkConfig {
  cfg_WalletRpcConfig : option WalletRpcConfig;
  cfg_ActiveNetParams : Params;
  cfg_WalletConfig : option WalletConfig;
  cfg_BtcNodeBackendConfig : option BtcNodeBackendConfig
}.

(** A configuration all of whose groups are present. *)
Definition configured (scfg : option Config) : bool :=
  match scfg with
  | None => false
  | Some scfg =>
      bool_decide (is_Some (cfg_WalletRpcConfig scfg))
      && bool_decide (is_Some (cfg_WalletConfig scfg))
      && bool_decide (is_Some (cfg_BtcNodeBackendConfig scfg))
  end.

(** The connection configuration the constructor assembles. *)
Definition connConfigFor (host user pass : string) (disableTls : bool)
    (certificates : bytes) : ConnConfig :=
  {| Host := host; User := user; Pass := pass;
     DisableTLS := disableTls;
     DisableConnectOnNew := true;
     DisableAutoReconnect := false;
     HTTPPostMode := true;
     Certificates := certificates |}.

(** ** Kinds of requests *)

Definition isBroadcast (r : Request) : bool :=
  match r with ReqSendRawTransaction _ _ => true | _ => false end.

Definition isPassphrase (r : Request) : bool :=
  match r with ReqWalletPassphrase _ _ => true | _ => false end.

Definition isListing (r : Request) : bool :=
  match r with ReqListUnspent => true | _ => false end.

Definition isSigning (r : Request) : bool :=
  match r with
  | ReqSignRawTransactionWithWallet _
  | ReqSignRawTransaction _
  | ReqSignRawTransactionWithWallet2 _ _ => true
  | _ => false
  end.

Definition isLookup (r : Request) : bool :=
  match r with ReqConfDetailsFromTxIndex _ _ => true | _ => false end.

(** ** [hex.DecodeString] (encoding/hex) *)

Inductive hexError :=
| ErrLength                              (* odd length hex string *)
| InvalidByteError (b : Ascii.ascii).

(** The digit a character stands for: [0-9], [a-f] and [A-F]. *)
Definition fromHexChar (c : Ascii.ascii) : option N :=
  let n := Ascii.N_of_ascii c in
  if ((48 <=? n) && (n <=? 57))%N then Some (n - 48)%N
  else if ((97 <=? n) && (n <=? 102))%N then Some (n - 87)%N
  else if ((65 <=? n) && (n <=? 70))%N then Some (n - 55)%N
  else None.

Definition byteOfN (n : N) : Byte.byte :=
  match Byte.of_N n with Some b => b | None => Byte.x00 end.

(** Characters are taken in pairs; the bytes decoded before a bad
    character or an odd tail are returned with the error, and a bad
    character in an odd tail is reported before the odd length. *)
Fixpoint hex_DecodeString (s : string) : bytes * option hexError :=
  match s with
  | EmptyString => ([], None)
  | String p EmptyString =>
      match fromHexChar p with
      | None => ([], Some (InvalidByteError p))
      | Some _ => ([], Some ErrLength)
      end
  | String p (String q rest) =>
      match fromHexChar p with
      | None => ([], Some (InvalidByteError p))
      | Some a =>
          match fromHexChar q with
          | None => ([], Some (InvalidByteError q))
          | Some b =>
              let '(decoded, err) := hex_DecodeString rest in
              (byteOfN (a * 16 + b) :: decoded, err)
          end
      end
  end.

(** ** Key access (client.go)

    [AddressPublicKey] and [DumpPrivateKey] reach two further entry points
    of the client, [GetAddressInfo] and [DumpPrivKey]. *)

(** [btcjson.GetAddressInfoResult], of which only [PubKey] is read. *)
Record GetAddressInfoResult := mkGetAddressInfoResult {
  info_PubKey : option string            (* *string *)
}.

(** Key material and address encoding are the libraries' ([btcec],
    [btcutil]). *)
Class KeyEnv `{env : Env} := {
  PublicKey : Type;
  PrivateKey : Type;
  EncodeAddress : Address -> string;
  ParsePubKey : bytes -> option PublicKey * option error
}.

Section KeyAccess.
Context `{keys : KeyEnv}.

(** [btcutil.WIF]. *)
Record WIF := mkWIF {
  wif_PrivKey : option PrivateKey;
  wif_CompressPubKey : bool
}.

(** What the key methods return as [error]: an error of the controller, of
    the backend or of [btcec], or one of [encoding/hex]. *)
Inductive keyError :=
| KeyErr (e : error)
| HexErr (e : hexError).

Inductive KeyRequest :=
| ReqGetAddressInfo (address : string)
| ReqDumpPrivKey (address : string).

Definition KeyResponse (r : KeyRequest) : Type :=
  match r with
  | ReqGetAddressInfo _ => (option GetAddressInfoResult * option error)%type
  | ReqDumpPrivKey _ => (option WIF * option error)%type
  end.

Inductive KeyRpc (A : Type) : Type :=
| KDone (a : A)
| KCrash (p : panic)
| KCall (r : KeyRequest) (k : KeyResponse r -> KeyRpc A).
Arguments KCrash {A} p.
Arguments KCall {A} r k.

Fixpoint KeyRpc_bind {A C} (f : A -> KeyRpc C) (m : KeyRpc A) : KeyRpc C :=
  match m with
  | KDone a => f a
  | KCrash p => KCrash p
  | KCall r k => KCall r (fun x => KeyRpc_bind f (k x))
  end.

#[global] Instance KeyRpc_ret : MRet KeyRpc := fun _ a => KDone a.
#[global] Instance KeyRpc_mbind : MBind KeyRpc :=
  fun _ _ f m => KeyRpc_bind f m.

Definition kcall (r : KeyRequest) : KeyRpc (KeyResponse r) :=
  KCall r (fun x => KDone x).

Record KeyBackend := mkKeyBackend {
  KeyWorld : Type;
  krespond : forall r : KeyRequest, KeyWorld -> KeyResponse r * KeyWorld
}.

Record KeyRun (B : KeyBackend) (A : Type) := mkKeyRun {
  kresult : outcome A;
  ktrace : list KeyRequest;
  kfinal : KeyWorld B
}.
Arguments mkKeyRun {B A} kresult ktrace kfinal.

Fixpoint kexec {B : KeyBackend} {A} (m : KeyRpc A) (w : KeyWorld B)
  : KeyRun B A :=
  match m with
  | KDone a => mkKeyRun (Returned a) [] w
  | KCrash p => mkKeyRun (Panicked p) [] w
  | KCall r k =>
      let '(x, w') := krespond B r w in
      let run := kexec (k x) w' in
      mkKeyRun (kresult run) (r :: ktrace run) (kfinal run)
  end.

Definition isKeyExport (r : KeyRequest) : bool :=
  match r with ReqDumpPrivKey _ => true | ReqGetAddressInfo _ => false end.

Definition ErrNoPublicKey (encoded : string) : error :=
  Errorf ("address " +:+ encoded +:+ " has no public key").

Definition AddressPublicKey (w : RpcWalletController)
    (address : option Address)
  : KeyRpc (option PublicKey * option keyError) :=
  match address with
  | None => KCrash PanicNilDereference
  | Some a =>
      let encoded := EncodeAddress a in
      '(info, err) ← kcall (ReqGetAddressInfo encoded);
      match err with
      | Some e => mret (None, Some (KeyErr e))
      | None =>
          match info with
          | None => KCrash PanicNilDereference
          | Some info =>
              match info_PubKey info with
              | None => mret (None, Some (KeyErr (ErrNoPublicKey encoded)))
              | Some pubKey =>
                  let '(decodedHex, err) := hex_DecodeString pubKey in
                  match err with
                  | Some e => mret (None, Some (HexErr e))
                  | None =>
                      let '(key, err) := ParsePubKey decodedHex in
                      mret (key, KeyErr <$> err)
                  end
              end
          end
      end
  end.

(** The client's [DumpPrivKey] encodes the address before it sends the
    command, as [AddressPublicKey] does itself: a nil address panics there,
    with nothing sent. *)
Definition DumpPrivateKey (w : RpcWalletController)
    (address : option Address)
  : KeyRpc (option PrivateKey * option error) :=
  match address with
  | None => KCrash PanicNilDereference
  | Some a =>
      '(privKey, err) ← kcall (ReqDumpPrivKey (EncodeAddress a));
      match err with
      | Some e => mret (None, Some e)
      | None =>
          match privKey with
          | None => KCrash PanicNilDereference
          | Some privKey => mret (wif_PrivKey privKey, None)
          end
      end
  end.

End KeyAccess.

(** A sample of the key libraries: keys are their serialized bytes, a
    public key is 33 bytes long, and an address encodes as itself. *)
Module KeySample.

#[export] Instance keys : KeyEnv (env := Sample.env) := {|
  PublicKey := bytes;
  PrivateKey := bytes;
  EncodeAddress := fun a : @Address Sample.env => a;
  ParsePubKey := fun serialized =>
    if Nat.eqb (length serialized) 33 then (Some serialized, None)
    else (None, Some (External "malformed public key"))
|}.

(** A key backend with a fixed answer to each kind of request. *)
Definition scripted
    (info : option GetAddressInfoResult * option error)
    (dumped : option (WIF (keys := keys)) * option error) : KeyBackend :=
  {| KeyWorld := unit;
     krespond := fun r _ =>
       (match r return KeyResponse r with
        | ReqGetAddressInfo _ => info
        | ReqDumpPrivKey _ => dumped
        end, tt) |}.

Definition compressedKey : bytes := Byte.x02 :: replicate 32 Byte.x79.

Definition privateKey : @PrivateKey Sample.env keys := [Byte.x01].

Definition wif : WIF (keys := keys) :=
  @mkWIF Sample.env keys (Some privateKey) true.

End KeySample.

Section FromConfig.
Context `{env : Env}.

(** The arguments are evaluated from left to right before the call: a nil
    configuration or a nil group panics at the first selector through it,
    and then [NewRpcWalletControllerFromArgs] is not entered. *)
Definition NewRpcWalletController (scfg : option Config)
  : outcome (option RpcWalletController * option error) :=
  match scfg with
  | None => Panicked PanicNilDereference
  | Some scfg =>
      match cfg_WalletRpcConfig scfg with
      | None => Panicked PanicNilDereference
      | Some walletRpcConfig =>
          match cfg_WalletConfig scfg with
          | None => Panicked PanicNilDereference
          | Some walletConfig =>
              match cfg_BtcNodeBackendConfig scfg with
              | None => Panicked PanicNilDereference
              | Some btcNodeBackendConfig =>
                  NewRpcWalletControllerFromArgs
                    (wrc_Host walletRpcConfig)
                    (wrc_User walletRpcConfig)
                    (wrc_Pass walletRpcConfig)
                    (Name (cfg_ActiveNetParams scfg))
                    (wc_WalletPass walletConfig)
                    (bnb_ActiveWalletBackend btcNodeBackendConfig)
                    (Some (cfg_ActiveNetParams scfg))
                    (wrc_DisableTls walletRpcConfig)
                    (wrc_RawRPCWalletCert walletRpcConfig)
                    (wrc_RPCWalletCert walletRpcConfig)
              end
          end
      end
  end.

End FromConfig.

(** ** The key seed of the integration test (itest/e2e_test.go) *)
Module Harness.

Definition hdSeed : bytes :=
  [Byte.x79; Byte.xa6; Byte.x1a; Byte.xdb; Byte.xc6; Byte.xe5; Byte.xa2;
   Byte.xe1; Byte.x39; Byte.xd2; Byte.x71; Byte.x3a; Byte.x54; Byte.x6e;
   Byte.xc7; Byte.xc8; Byte.x75; Byte.x63; Byte.x2e; Byte.x75; Byte.xf1;
   Byte.xdf; Byte.x9c; Byte.x3f; Byte.xa6; Byte.x01; Byte.x00; Byte.x00;
   Byte.x00; Byte.x00; Byte.x00; Byte.x00].

(** [chainhash.HashSize]. *)
Definition HashSize : nat := 32.

(** The built-in [copy]: as many elements as the shorter slice has. *)
Definition copy (dst src : bytes) : bytes :=
  take (length dst) src ++ drop (length src) dst.

(** [byte(v)] of an unsigned integer: its low eight bits. *)
Definition byteOf (v : Z) : Byte.byte := byteOfN (Z.to_N (v mod 256)).

(** [binary.BigEndian.PutUint32]: the first four bytes of the slice are
    set, most significant byte first; a shorter slice panics. *)
Definition BigEndian_PutUint32 (b : bytes) (v : Z) : outcome bytes :=
  if (length b <? 4)%nat then Panicked (PanicIndexOutOfRange 3 (length b))
  else Returned ([byteOf (Z.shiftr v 24); byteOf (Z.shiftr v 16);
                  byteOf (Z.shiftr v 8); byteOf v] ++ drop 4 b).

(** The seed [GetSpendingKeyAndAddress] hands to [hdkeychain.NewMaster]:
    an array of [HashSize + 4] zero bytes, the fixed seed copied in, and
    the id written over the slice of its first [HashSize] bytes. *)
Definition harnessHDSeed (id : Z) : outcome bytes :=
  let harnessHDSeed := replicate (HashSize + 4) Byte.x00 in
  let harnessHDSeed := copy harnessHDSeed hdSeed in
  match BigEndian_PutUint32 (take HashSize harnessHDSeed) id with
  | Panicked p => Panicked p
  | Returned written => Returned (written ++ drop HashSize harnessHDSeed)
  end.

Section SpendingKey.
(** [hdkeychain], [btcec] and [btcutil] as the test uses them, and the
    simnet parameters it passes along. *)
Variables (ExtendedKey TestPrivateKey TestPublicKey : Type).
Variables (TestAddress AddressPubKey : Type).
Variable simnetParams : Params.
Variable NewMaster : bytes -> Params -> ExtendedKey + error.
Variable Derive : ExtendedKey -> Z -> ExtendedKey + error.
Variable ECPrivKey : ExtendedKey -> TestPrivateKey + error.
Variable PubKey : TestPrivateKey -> TestPublicKey.
Variable SerializeCompressed : TestPublicKey -> bytes.
Variable NewAddressPubKey : bytes -> Params -> AddressPubKey + error.
Variable AddressPubKeyHash : AddressPubKey -> TestAddress.

Definition keyToAddr (key : TestPrivateKey) (net : Params)
  : TestAddress + error :=
  let serializedKey := SerializeCompressed (PubKey key) in
  match NewAddressPubKey serializedKey net with
  | inr err => inr err
  | inl pubKeyAddr => inl (AddressPubKeyHash pubKeyAddr)
  end.

Definition GetSpendingKeyAndAddress (id : Z)
  : outcome (TestPrivateKey * TestAddress + error) :=
  match harnessHDSeed id with
  | Panicked p => Panicked p
  | Returned seed =>
      match NewMaster seed simnetParams with
      | inr err => Returned (inr err)
      | inl hdRoot =>
          match Derive hdRoot 0 with
          | inr err => Returned (inr err)
          | inl coinbaseChild =>
              match ECPrivKey coinbaseChild with
              | inr err => Returned (inr err)
              | inl coinbaseKey =>
                  match keyToAddr coinbaseKey simnetParams with
                  | inr err => Returned (inr err)
                  | inl coinbaseAddr =>
                      Returned (inl (coinbaseKey, coinbaseAddr))
                  end
              end
          end
      end
  end.

End SpendingKey.

End Harness.

(** * Properties *)

(** ** Running programs *)

Section Exec.
Context {B : Backend}.

Lemma exec_call (r : Request) (w : World B) :
  exec (call r) w
  = mkRun (Returned (respond B r w).1) [r] (respond B r w).2.
Proof. simpl. destruct (respond B r w); reflexivity. Qed.

Lemma exec_bind {A C} (m : Rpc A) (f : A -> Rpc C) (w : World B) :
  exec (m ≫= f) w
  = match result (exec m w) with
    | Returned a =>
        let rest := exec (f a) (final (exec m w)) in
        mkRun (result rest) (trace (exec m w) ++ trace rest) (final rest)
    | Panicked p => mkRun (Panicked p) (trace (exec m w)) (final (exec m w))
    end.
Proof.
  revert w. induction m as [a|p|r k IH]; intros w; simpl.
  - destruct (exec (f a) w); reflexivity.
  - reflexivity.
  - destruct (respond B r w) as [x w']. unfold mbind, Rpc_mbind in IH.
    rewrite IH. destruct (result (exec (k x) w')); reflexivity.
Qed.

End Exec.

Section Properties.
Context `{env : Env}.

(** ** Confirmation status *)

(** C1. The status mapper sends the index "not found" and the manual "not
    found" states to [TxNotFound], the mempool state to [TxInMemPool], the
    index "found" and the manual "found" states to [TxInChain]; on every
    other state it panics and returns no status. *)
Theorem nofitierStateToWalletState_mapping :
  nofitierStateToWalletState TxNotFoundIndex = Returned TxNotFound
  /\ nofitierStateToWalletState TxNotFoundManually = Returned TxNotFound
  /\ nofitierStateToWalletState TxFoundMempool = Returned TxInMemPool
  /\ nofitierStateToWalletState TxFoundIndex = Returned TxInChain
  /\ nofitierStateToWalletState TxFoundManually = Returned TxInChain
  /\ forall state : TxConfStatus,
       state <> TxNotFoundIndex -> state <> TxNotFoundManually ->
       state <> TxFoundMempool ->
       state <> TxFoundIndex -> state <> TxFoundManually ->
       nofitierStateToWalletState state
       = Panicked (PanicUnknownNotifierState state).
Proof.
  repeat split; try reflexivity.
  intros state H1 H2 H3 H4 H5. unfold nofitierStateToWalletState.
  apply Z.eqb_neq in H1, H2, H3, H4, H5.
  rewrite H1, H2, H3, H4, H5. reflexivity.
Qed.

(** The confirmation lookup proper: an error of the backend lookup comes
    with [TxNotFound]. *)
Lemma getTxDetails_exec {B : Backend} (w : RpcWalletController)
    (req : ConfRequest) (msg : string) (world : World B) :
  let answer := (respond B (ReqConfDetailsFromTxIndex req msg) world).1 in
  result (exec (getTxDetails w req msg) world)
  = match answer with
    | (_, _, Some e) => Returned (None, TxNotFound, Some e)
    | (res, state, None) =>
        match nofitierStateToWalletState state with
        | Returned status => Returned (res, status, None)
        | Panicked p => Panicked p
        end
    end.
Proof.
  simpl. unfold getTxDetails. simpl.
  destruct (respond B (ReqConfDetailsFromTxIndex req msg) world)
    as [[[res state] err] world'].
  simpl. destruct err as [e|]; [reflexivity|].
  destruct (nofitierStateToWalletState state); reflexivity.
Qed.

(** C9. Whenever [getTxDetails] or [TxDetails] returns a non-nil error, the
    status next to it is [TxNotFound]. *)
Theorem TxDetails_error_status {B : Backend} (w : RpcWalletController)
    (world : World B) :
  (forall req msg res status e,
      result (exec (getTxDetails w req msg) world)
      = Returned (res, status, Some e) ->
      status = TxNotFound)
  /\ (forall txHash pkScript res status e,
      result (exec (TxDetails w txHash pkScript) world)
      = Returned (res, status, Some e) ->
      status = TxNotFound).
Proof.
  assert (Hget : forall req msg res status e,
             result (exec (getTxDetails w req msg) world)
             = Returned (res, status, Some e) -> status = TxNotFound).
  { intros req msg res status e. rewrite getTxDetails_exec.
    destruct (respond B _ world).1 as [[res' state] [e'|]].
    - intros [= _ <- _]. reflexivity.
    - destruct (nofitierStateToWalletState state); intros [=]. }
  split; [exact Hget|].
  intros txHash pkScript res status e. unfold TxDetails.
  destruct (NewConfRequest txHash pkScript) as [req [e'|]].
  - simpl. intros [= _ <- _]. reflexivity.
  - destruct (backend w =? BitcoindWalletBackend); [apply Hget|].
    destruct (backend w =? BtcwalletWalletBackend); [apply Hget|].
    simpl. intros [= _ <- _]. reflexivity.
Qed.

(** ** Backend dispatch *)


(** ** Ownership proofs (BIP322) *)

(** C4. When output 0 of the to-spend transaction is not a
    pay-to-witness-pubkey-hash script, [SignBip322NativeSegwit] is the
    program that returns the unsupported-address error at once: it contains
    no request, so no signing call is issued against any backend. *)
Theorem SignBip322NativeSegwit_rejects_before_signing
    (w : RpcWalletController) (msg : bytes) (address : option Address)
    (toSpend : MsgTx) (out0 : TxOut) :
  GetToSpendTx msg address = (Some toSpend, None) ->
  tx_TxOut toSpend !! 0%nat = Some out0 ->
  IsPayToWitnessPubKeyHash (PkScript out0) = false ->
  SignBip322NativeSegwit w msg address = Done (None, Some ErrOnlyNativeSegwit)
  /\ forall (B : Backend) (world : World B),
       exec (SignBip322NativeSegwit w msg address) world
       = mkRun (Returned (None, Some ErrOnlyNativeSegwit)) [] world.
Proof.
  intros Hspend Hout Hscript.
  assert (Hprog : SignBip322NativeSegwit w msg address
                  = Done (None, Some ErrOnlyNativeSegwit)).
  { unfold SignBip322NativeSegwit. rewrite Hspend, Hout, Hscript.
    reflexivity. }
  split; [exact Hprog|]. intros B world. rewrite Hprog. reflexivity.
Qed.

(** C5 (amended). Past the script check, [SignBip322NativeSegwit] issues
    exactly one request: the signing call with explicit hints on the
    to-sign transaction, with the single hint [bip322Hint] (to-spend hash,
    output index 0, output-0 script, zero amount).  A failure of the call
    is returned wrapped; an answer with not all inputs signed gives the
    not-wallet-controlled error naming the address; otherwise the witness
    of input 0 of the signed transaction is returned. *)
Theorem SignBip322NativeSegwit_signs_with_hint
    (w : RpcWalletController) (msg : bytes) (address : option Address)
    (toSpend : MsgTx) (out0 : TxOut)
    (B : Backend) (world : World B) :
  GetToSpendTx msg address = (Some toSpend, None) ->
  tx_TxOut toSpend !! 0%nat = Some out0 ->
  IsPayToWitnessPubKeyHash (PkScript out0) = true ->
  let req := ReqSignRawTransactionWithWallet2 (GetToSignTx toSpend)
               [bip322Hint toSpend out0] in
  let run := exec (SignBip322NativeSegwit w msg address) world in
  trace run = [req]
  /\ (forall signed all e,
        (respond B req world).1 = (signed, all, Some e) ->
        result run
        = Returned (None,
            Some (ErrorfW
              "failed to sign raw transaction while creating bip322 signature: "
              e)))
  /\ (forall signed,
        (respond B req world).1 = (signed, false, None) ->
        result run = Returned (None, Some (ErrNotWalletControlled address)))
  /\ (forall signed in0,
        (respond B req world).1 = (Some signed, true, None) ->
        tx_TxIn signed !! 0%nat = Some in0 ->
        result run = Returned (Some (Witness in0), None)).
Proof.
  intros Hspend Hout Hscript req run. subst run.
  unfold SignBip322NativeSegwit. rewrite Hspend, Hout, Hscript. simpl.
  fold (bip322Hint toSpend out0). fold req.
  destruct (respond B req world) as [[[signed all] err] world'] eqn:Hresp.
  simpl. split.
  { destruct err as [e|]; [reflexivity|]. destruct all; simpl; [|reflexivity].
    destruct signed as [signed|]; [|reflexivity].
    destruct (tx_TxIn signed !! 0%nat); reflexivity. }
  split; [intros ? ? e [= -> -> ->]; reflexivity|].
  split; [intros ? [= -> -> ->]; reflexivity|].
  intros s in0 [= -> -> ->] Hin. simpl. rewrite Hin. reflexivity.
Qed.

(** ** Signing *)

(** On a supported backend the low-level signer is a single call whose
    answer is handed back untouched. *)
Lemma SignRawTransaction_supported (w : RpcWalletController)
    (tx : option MsgTx) :
  (backend w = BitcoindWalletBackend ->
   SignRawTransaction w tx = call (ReqSignRawTransactionWithWallet tx))
  /\ (backend w = BtcwalletWalletBackend ->
      SignRawTransaction w tx = call (ReqSignRawTransaction tx)).
Proof.
  unfold SignRawTransaction. split; intros H.
  - rewrite H, Z.eqb_refl. reflexivity.
  - assert (Hne : (backend w =? BitcoindWalletBackend) = false).
    { apply Z.eqb_neq. rewrite H. intros Heq. symmetry in Heq.
      exact (backends_distinct Heq). }
    rewrite Hne, H, Z.eqb_refl. reflexivity.
Qed.

(** C3. Once a transaction is built, [CreateAndSignTx] hands it to
    [SignRawTransaction]; if that reports not all inputs signed the whole
    call fails, and a transaction is returned only if all inputs were
    signed, the one the signer returned.  [SignRawTransaction] itself, on
    either supported backend, is one signing call whose answer
    (transaction, flag, error) is returned as it came. *)
Theorem CreateAndSignTx_requires_all_signed {B : Backend} (world : World B)
    (w : RpcWalletController) (outputs : list TxOut) (feeRatePerKb : Z)
    (changeAddress : option Address) :
  let built := exec (CreateTransaction w outputs feeRatePerKb changeAddress)
                 world in
  let whole := exec (CreateAndSignTx w outputs feeRatePerKb changeAddress)
                 world in
  (forall tx fundedTx signed err,
      result built = Returned (tx, None) ->
      result (exec (SignRawTransaction w tx) (final built))
      = Returned (fundedTx, signed, err) ->
      (signed = false -> exists e, result whole = Returned (None, Some e))
      /\ (signed = true -> err = None ->
          result whole = Returned (fundedTx, None))
      /\ (err = None -> signed = false ->
          result whole = Returned (None, Some ErrNotAllSigned))
      /\ (forall t, result whole = Returned (Some t, None) ->
          signed = true /\ err = None /\ fundedTx = Some t))
  /\ (forall tx (world' : World B),
      backend w = BitcoindWalletBackend ->
      let req := ReqSignRawTransactionWithWallet tx in
      exec (SignRawTransaction w tx) world'
      = mkRun (Returned (respond B req world').1) [req]
          (respond B req world').2)
  /\ (forall tx (world' : World B),
      backend w = BtcwalletWalletBackend ->
      let req := ReqSignRawTransaction tx in
      exec (SignRawTransaction w tx) world'
      = mkRun (Returned (respond B req world').1) [req]
          (respond B req world').2).
Proof.
  intros built whole. split.
  - intros tx fundedTx signed err Hbuilt Hsign. subst whole.
    unfold CreateAndSignTx. rewrite exec_bind. fold built. rewrite Hbuilt.
    cbn zeta iota beta. rewrite exec_bind, Hsign.
    destruct err as [e|]; [|destruct signed]; simpl.
    + split; [intros _; exists e; reflexivity|].
      split; [intros _ [=]|]. split; [intros [=]|]. intros t [=].
    + split; [intros [=]|]. split; [reflexivity|].
      split; [intros _ [=]|]. intros t [= ->]. repeat split.
    + split; [intros _; exists ErrNotAllSigned; reflexivity|].
      split; [intros [=]|]. split; [reflexivity|]. intros t [=].
  - split; intros tx world' Hb req.
    + rewrite (proj1 (SignRawTransaction_supported w tx) Hb).
      exact (exec_call req world').
    + rewrite (proj2 (SignRawTransaction_supported w tx) Hb).
      exact (exec_call req world').
Qed.

(** ** Candidate order *)

Ltac order_to_Z :=
  unfold not_after, sort_Reverse, byAmount_Less, OutPoint_ltb, largestFirst
    in *;
  repeat match goal with
         | H : _ || _ = false |- _ => apply orb_false_iff in H; destruct H
         | H : _ && _ = false |- _ => apply andb_false_iff in H; destruct H
         | H : (_ <? _) = false |- _ => apply Z.ltb_ge in H
         | H : (_ =? _) = false |- _ => apply Z.eqb_neq in H
         | H : _ \/ _ |- _ => destruct H
         | H : _ /\ _ |- _ => destruct H
         end.

Ltac order_goal :=
  repeat match goal with
         | |- _ || _ = false => apply orb_false_iff; split
         | |- (_ <? _) = false => apply Z.ltb_ge; lia
         | |- _ && _ = false => apply andb_false_iff
         end.

Lemma not_after_largestFirst (a b : Utxo) :
  not_after (sort_Reverse byAmount_Less) a b <-> largestFirst a b.
Proof.
  unfold not_after, sort_Reverse, byAmount_Less, largestFirst.
  rewrite orb_false_iff, andb_false_iff, Z.ltb_ge, Z.eqb_neq. split.
  - intros [Hle [Hne|Hop]]; [left; lia|].
    destruct (Z.eq_dec (utxo_Amount a) (utxo_Amount b)); [right|left; lia].
    split; assumption.
  - intros [Hlt|[Heq Hop]]; (split; [lia|]); [left; lia|right; exact Hop].
Qed.

Lemma OutPoint_ltb_total (a b : OutPoint) :
  OutPoint_ltb a b = false \/ OutPoint_ltb b a = false.
Proof.
  unfold OutPoint_ltb.
  destruct (Z.lt_total (op_Hash a) (op_Hash b)) as [H|[H|H]].
  - right. order_goal. left. apply Z.eqb_neq. lia.
  - destruct (Z.le_ge_cases (op_Index a) (op_Index b)).
    + right. order_goal. right. apply Z.ltb_ge. lia.
    + left. order_goal. right. apply Z.ltb_ge. lia.
  - left. order_goal. left. apply Z.eqb_neq. lia.
Qed.

Lemma OutPoint_ltb_tie (a b : OutPoint) :
  OutPoint_ltb a b = false -> OutPoint_ltb b a = false -> a = b.
Proof.
  destruct a as [ha ia], b as [hb ib]. unfold OutPoint_ltb. simpl.
  intros H1 H2. order_to_Z; f_equal; lia.
Qed.

Lemma OutPoint_ltb_false_trans (a b c : OutPoint) :
  OutPoint_ltb a b = false -> OutPoint_ltb b c = false ->
  OutPoint_ltb a c = false.
Proof.
  unfold OutPoint_ltb. intros H1 H2.
  order_to_Z; order_goal;
    solve [ left; apply Z.eqb_neq; lia | right; apply Z.ltb_ge; lia ].
Qed.

Lemma largest_first_total :
  Total (not_after (sort_Reverse byAmount_Less)).
Proof.
  intros a b. rewrite !not_after_largestFirst. unfold largestFirst.
  destruct (Z.lt_total (utxo_Amount a) (utxo_Amount b)) as [H|[H|H]];
    [right; left; lia| |left; left; lia].
  destruct (OutPoint_ltb_total (utxo_OutPoint a) (utxo_OutPoint b));
    [left|right]; right; split; auto.
Qed.

Lemma largest_first_trans :
  Transitive (not_after (sort_Reverse byAmount_Less)).
Proof.
  intros a b c. rewrite !not_after_largestFirst. unfold largestFirst.
  intros [H1|[H1 O1]] [H2|[H2 O2]]; [left; lia..|].
  right. split; [lia|]. eapply OutPoint_ltb_false_trans; eassumption.
Qed.

Lemma candidates_Permutation (results : list ListUnspentResult) :
  candidates results ≡ₚ eligible results.
Proof. apply merge_sort_Permutation. Qed.

Lemma candidates_sorted (results : list ListUnspentResult) :
  StronglySorted largestFirst (candidates results).
Proof.
  assert (H : StronglySorted (not_after (sort_Reverse byAmount_Less))
                (candidates results))
    by exact (@StronglySorted_merge_sort _ _ _ largest_first_trans
          largest_first_total _).
  induction H as [|a l Hl IH Ha]; constructor; [exact IH|].
  eapply Forall_impl; [exact Ha|].
  intros b. apply not_after_largestFirst.
Qed.

Lemma elem_of_eligible (u : Utxo) (results : list ListUnspentResult) :
  u ∈ eligible results <->
  exists r, r ∈ results /\ lr_Spendable r = true /\ u = resultToUtxo r.
Proof.
  unfold eligible, resultsToUtxos. simpl. rewrite list_elem_of_fmap.
  split.
  - intros (r & -> & Hr). apply list_elem_of_filter in Hr as [[Hf|Hs] Hin];
      [discriminate|]. eauto.
  - intros (r & Hin & Hs & ->). exists r. split; [reflexivity|].
    apply list_elem_of_filter. auto.
Qed.

Lemma eligible_Permutation (results1 results2 : list ListUnspentResult) :
  results1 ≡ₚ results2 -> eligible results1 ≡ₚ eligible results2.
Proof.
  intros H. unfold eligible, resultsToUtxos. simpl. rewrite H. reflexivity.
Qed.

Lemma candidates_order_independent
    (results1 results2 : list ListUnspentResult) :
  results1 ≡ₚ results2 -> outpointsIdentify results1 ->
  candidates results1 = candidates results2.
Proof.
  intros Hperm Hid.
  apply (@Sorted_unique_strong _ _ largest_first_trans).
  - intros u1 u2 H1 H2 H12 H21.
    rewrite candidates_Permutation in H1, H2.
    rewrite <- (eligible_Permutation Hperm) in H2.
    apply elem_of_eligible in H1 as (r1 & Hr1 & _ & ->).
    apply elem_of_eligible in H2 as (r2 & Hr2 & _ & ->).
    apply not_after_largestFirst in H12, H21.
    assert (Hop : utxo_OutPoint (resultToUtxo r1)
                  = utxo_OutPoint (resultToUtxo r2)).
    { destruct H12 as [?|[? ?]], H21 as [?|[? ?]]; try lia.
      apply OutPoint_ltb_tie; assumption. }
    injection Hop as Hh Hv. rewrite (Hid r1 r2); auto.
  - exact (@Sorted_merge_sort _ _ _ largest_first_total _).
  - exact (@Sorted_merge_sort _ _ _ largest_first_total _).
  - rewrite !candidates_Permutation. apply eligible_Permutation, Hperm.
Qed.

(** ** Accumulation *)

Lemma totalAmount_app (l1 l2 : list Utxo) :
  totalAmount (l1 ++ l2) = totalAmount l1 + totalAmount l2.
Proof. induction l1 as [|u l1 IH]; simpl; [|rewrite IH]; lia. Qed.

Lemma totalValue_app (l1 l2 : list TxOut) :
  totalValue (l1 ++ l2) = totalValue l1 + totalValue l2.
Proof. induction l1 as [|u l1 IH]; simpl; [|rewrite IH]; lia. Qed.

Lemma totalAmount_Permutation (l1 l2 : list Utxo) :
  l1 ≡ₚ l2 -> totalAmount l1 = totalAmount l2.
Proof. induction 1; simpl; lia. Qed.

Lemma totalAmount_take_le (k : nat) (l : list Utxo) :
  Forall (fun u => 0 <= utxo_Amount u) l ->
  totalAmount (take k l) <= totalAmount l.
Proof.
  intros H. revert k. induction H as [|u l Hu Hl IH]; intros [|k]; simpl;
    try lia.
  - assert (0 <= totalAmount l); [|lia].
    clear IH. induction Hl; simpl; lia.
  - specialize (IH k). lia.
Qed.

Lemma accumulate_first (requested feeRatePerKb : Z) (numOutputs : nat)
    (cands sel : list Utxo) (cov : Z) (s : list Utxo) :
  accumulate requested feeRatePerKb numOutputs cands sel cov = Some s ->
  exists k, (1 <= k <= length cands)%nat
    /\ s = sel ++ take k cands
    /\ requested + feeFor feeRatePerKb (length sel + k) numOutputs
       <= cov + totalAmount (take k cands)
    /\ forall j, (1 <= j < k)%nat ->
         cov + totalAmount (take j cands)
         < requested + feeFor feeRatePerKb (length sel + j) numOutputs.
Proof.
  revert sel cov. induction cands as [|u rest IH]; intros sel cov; simpl;
    [discriminate|].
  rewrite length_app. cbn [length].
  destruct (Z.leb_spec
    (requested + feeFor feeRatePerKb (length sel + 1) numOutputs)
    (cov + utxo_Amount u)) as [Hle|Hgt].
  - intros [= <-]. exists 1%nat. simpl. rewrite take_0. simpl.
    split; [lia|]. split; [reflexivity|]. split; [lia|].
    intros j Hj. lia.
  - intros H. apply IH in H as (k & Hk & -> & Hfee & Hmin).
    rewrite length_app in Hfee, Hmin. cbn [length] in Hfee, Hmin.
    exists (S k). simpl. rewrite <- app_assoc. simpl.
    split; [lia|]. split; [reflexivity|]. split.
    + replace (length sel + S k)%nat with (length sel + 1 + k)%nat by lia.
      lia.
    + intros [|[|j]] Hj; [lia| |].
      * simpl. lia.
      * specialize (Hmin (S j)). lapply Hmin; [|lia].
        replace (length sel + 1 + S j)%nat
          with (length sel + S (S j))%nat by lia.
        change (take (S (S j)) (u :: rest)) with (u :: take (S j) rest).
        change (totalAmount (u :: take (S j) rest))
          with (utxo_Amount u + totalAmount (take (S j) rest)).
        lia.
Qed.

Lemma accumulate_covering (requested feeRatePerKb : Z) (numOutputs : nat)
    (cands sel : list Utxo) (cov : Z) (k : nat) :
  (1 <= k <= length cands)%nat ->
  requested + feeFor feeRatePerKb (length sel + k) numOutputs
  <= cov + totalAmount (take k cands) ->
  is_Some (accumulate requested feeRatePerKb numOutputs cands sel cov).
Proof.
  revert sel cov k. induction cands as [|u rest IH]; intros sel cov k Hk Hfee;
    simpl in *; [lia|].
  rewrite length_app. cbn [length].
  destruct (Z.leb_spec
    (requested + feeFor feeRatePerKb (length sel + 1) numOutputs)
    (cov + utxo_Amount u)) as [Hle|Hgt]; [eauto|].
  destruct k as [|[|k]]; [lia| |].
  - simpl in Hfee. lia.
  - apply (IH (sel ++ [u]) (cov + utxo_Amount u) (S k)); [lia|].
    rewrite length_app. cbn [length].
    replace (length sel + 1 + S k)%nat
      with (length sel + S (S k))%nat by lia.
    change (take (S (S k)) (u :: rest)) with (u :: take (S k) rest) in Hfee.
    change (totalAmount (u :: take (S k) rest))
      with (utxo_Amount u + totalAmount (take (S k) rest)) in Hfee.
    lia.
Qed.

Lemma StronglySorted_take_drop {A} (R : relation A) (l : list A) (k : nat)
    (u v : A) :
  StronglySorted R l -> u ∈ take k l -> v ∈ drop k l -> R u v.
Proof.
  intros Hl. revert k. induction Hl as [|a l Hl IH Ha]; intros k.
  - rewrite take_nil. intros H. apply elem_of_nil in H. contradiction.
  - destruct k as [|k]; simpl.
    + intros H. apply elem_of_nil in H. contradiction.
    + intros Hu Hv. apply elem_of_cons in Hu as [->|Hu]; [|eauto].
      rewrite Forall_forall in Ha. apply Ha.
      apply (subseteq_drop k l). exact Hv.
Qed.

(** ** Building *)

Lemma buildTxFromOutputs_first utxos outputs feeRatePerKb changeScript tx :
  buildTxFromOutputs utxos outputs feeRatePerKb changeScript = (Some tx, None)
  -> exists k, (1 <= k <= length utxos)%nat
     /\ covers feeRatePerKb outputs utxos k
     /\ (forall j, (1 <= j < k)%nat -> ~ covers feeRatePerKb outputs utxos j)
     /\ tx = {| Version := 1;
                tx_TxIn := utxoToTxIn <$> take k utxos;
                tx_TxOut :=
                  outputs
                  ++ changeOutputs
                       (totalAmount (take k utxos) - totalValue outputs
                        - feeFor feeRatePerKb k (S (length outputs)))
                       changeScript;
                LockTime := 0 |}.
Proof.
  unfold buildTxFromOutputs, covers.
  destruct utxos as [|u rest]; [discriminate|].
  destruct (accumulate _ _ _ _ _ _) as [selected|] eqn:Hacc; [|discriminate].
  intros [= <-].
  apply accumulate_first in Hacc as (k & Hk & -> & Hfee & Hmin).
  simpl app in *. cbn [length Nat.add] in Hfee, Hmin. exists k.
  assert (Hlen : length (take k (u :: rest)) = k)
    by (rewrite length_take; lia).
  rewrite Hlen. split; [exact Hk|]. split; [lia|]. split; [|reflexivity].
  intros j Hj. specialize (Hmin j Hj). lia.
Qed.

Lemma buildTxFromOutputs_covering utxos outputs feeRatePerKb changeScript k :
  (1 <= k <= length utxos)%nat ->
  covers feeRatePerKb outputs utxos k ->
  exists tx, buildTxFromOutputs utxos outputs feeRatePerKb changeScript
             = (Some tx, None).
Proof.
  intros Hk Hfee. unfold buildTxFromOutputs, covers in *.
  destruct utxos as [|u rest]; [simpl in Hk; lia|].
  destruct (@accumulate_covering (totalValue outputs) feeRatePerKb
              (S (length outputs)) (u :: rest) [] 0 k Hk) as [s Hs].
  { cbn [length Nat.add]. lia. }
  rewrite Hs. eauto.
Qed.

Lemma buildTxFromOutputs_cases utxos outputs feeRatePerKb changeScript :
  (utxos = []
   /\ buildTxFromOutputs utxos outputs feeRatePerKb changeScript
      = (None, Some NoUsableFunds))
  \/ (utxos <> []
      /\ (forall k, (1 <= k <= length utxos)%nat ->
            ~ covers feeRatePerKb outputs utxos k)
      /\ buildTxFromOutputs utxos outputs feeRatePerKb changeScript
         = (None, Some InsufficientFunds))
  \/ (exists tx,
        buildTxFromOutputs utxos outputs feeRatePerKb changeScript
        = (Some tx, None)).
Proof.
  destruct utxos as [|u rest]; [left; split; reflexivity|]. right.
  destruct (buildTxFromOutputs (u :: rest) outputs feeRatePerKb changeScript)
    as [tx err] eqn:Hbuild.
  unfold buildTxFromOutputs in Hbuild.
  destruct (accumulate _ _ _ _ _ _) as [selected|] eqn:Hacc.
  - right. injection Hbuild as <- <-. eauto.
  - left. injection Hbuild as <- <-. split; [discriminate|].
    split; [|reflexivity]. intros k Hk Hcov.
    destruct (@accumulate_covering (totalValue outputs) feeRatePerKb
                (S (length outputs)) (u :: rest) [] 0 k Hk) as [s Hs].
    { unfold covers in Hcov. cbn [length Nat.add]. lia. }
    congruence.
Qed.

Lemma CreateTransaction_exec {B : Backend} (world : World B)
    (w : RpcWalletController) outputs feeRatePerKb changeAddres :
  exec (CreateTransaction w outputs feeRatePerKb changeAddres) world
  = mkRun
      (Returned
         match (respond B ReqListUnspent world).1 with
         | (_, Some e) => (None, Some e)
         | (results, None) => built results outputs feeRatePerKb changeAddres
         end)
      [ReqListUnspent]
      (respond B ReqListUnspent world).2.
Proof.
  unfold CreateTransaction, built. simpl.
  destruct (respond B ReqListUnspent world) as [[results [e|]] world'];
    simpl; [reflexivity|].
  fold (eligible results). fold (candidates results).
  destruct (PayToAddrScript changeAddres) as [script [e|]]; [reflexivity|].
  destruct (buildTxFromOutputs _ _ _ _) as [tx [e|]]; reflexivity.
Qed.

(** C6. [CreateTransaction] builds from the candidate list and from
    nothing else: once the snapshot is listed and the change address has a
    script, its result is that of [buildTxFromOutputs] on the candidates.
    The candidates are the spendable entries of the snapshot, ordered by
    value from largest to smallest with the outpoint order deciding among
    equal values.  The inputs of a returned transaction spend the [k] first
    candidates for some [k >= 1], in that order: each of them a spendable
    entry, and each standing in the order before every candidate left
    unspent.  The outcome is a function of the snapshot: two calls answered
    with the same snapshot return the same transaction, also when the
    backend lists the entries in another order, as long as the outpoint
    identifies the entry. *)
Theorem CreateTransaction_largest_first_deterministic
    (outputs : list TxOut) (feeRatePerKb : Z)
    (changeAddres : option Address) :
  (forall results u,
      u ∈ candidates results <->
      exists r, r ∈ results /\ lr_Spendable r = true /\ u = resultToUtxo r)
  /\ (forall results, StronglySorted largestFirst (candidates results))
  /\ (forall (B : Backend) (world : World B) w results changeScript,
      (respond B ReqListUnspent world).1 = (results, None) ->
      PayToAddrScript changeAddres = (changeScript, None) ->
      result (exec (CreateTransaction w outputs feeRatePerKb changeAddres)
                world)
      = Returned
          match buildTxFromOutputs (candidates results) outputs feeRatePerKb
                  changeScript with
          | (_, Some e) => (None, Some e)
          | (tx, None) => (tx, None)
          end)
  /\ (forall (B : Backend) (world : World B) w results tx,
      (respond B ReqListUnspent world).1 = (results, None) ->
      result (exec (CreateTransaction w outputs feeRatePerKb changeAddres)
                world)
      = Returned (Some tx, None) ->
      exists k, (1 <= k <= length (candidates results))%nat
        /\ tx_TxIn tx = utxoToTxIn <$> take k (candidates results)
        /\ (forall u v,
              u ∈ take k (candidates results) ->
              v ∈ drop k (candidates results) -> largestFirst u v)
        /\ (forall i, i ∈ tx_TxIn tx ->
              exists r, r ∈ results /\ lr_Spendable r = true
                /\ i = utxoToTxIn (resultToUtxo r)))
  /\ (forall (B1 B2 : Backend) (world1 : World B1) (world2 : World B2)
        w1 w2 results,
      (respond B1 ReqListUnspent world1).1 = (results, None) ->
      (respond B2 ReqListUnspent world2).1 = (results, None) ->
      result (exec (CreateTransaction w1 outputs feeRatePerKb changeAddres)
                world1)
      = result (exec (CreateTransaction w2 outputs feeRatePerKb changeAddres)
                  world2))
  /\ (forall (B1 B2 : Backend) (world1 : World B1) (world2 : World B2)
        w1 w2 results1 results2,
      (respond B1 ReqListUnspent world1).1 = (results1, None) ->
      (respond B2 ReqListUnspent world2).1 = (results2, None) ->
      results1 ≡ₚ results2 ->
      outpointsIdentify results1 ->
      result (exec (CreateTransaction w1 outputs feeRatePerKb changeAddres)
                world1)
      = result (exec (CreateTransaction w2 outputs feeRatePerKb changeAddres)
                  world2)).
Proof.
  assert (Hmem : forall results u,
             u ∈ candidates results <->
             exists r, r ∈ results /\ lr_Spendable r = true
               /\ u = resultToUtxo r).
  { intros results u. rewrite candidates_Permutation.
    apply elem_of_eligible. }
  split; [exact Hmem|].
  split; [apply candidates_sorted|]. split.
  { intros B world w results script Hresp Hscript.
    rewrite CreateTransaction_exec, Hresp. simpl. unfold built.
    rewrite Hscript. reflexivity. }
  split.
  { intros B world w results tx Hresp. rewrite CreateTransaction_exec, Hresp.
    simpl. unfold built.
    destruct (PayToAddrScript changeAddres) as [script [e|]]; [intros [=]|].
    destruct (buildTxFromOutputs _ _ _ _) as [tx' [e|]] eqn:Hbuild;
      [intros [=]|].
    intros [= ->].
    apply buildTxFromOutputs_first in Hbuild as (k & Hk & _ & _ & ->).
    exists k. split; [exact Hk|]. split; [reflexivity|]. split.
    - intros u v. apply StronglySorted_take_drop, candidates_sorted.
    - intros i Hi. cbn [tx_TxIn] in Hi.
      apply list_elem_of_fmap in Hi as (u & -> & Hu).
      apply (subseteq_take k (candidates results)) in Hu.
      apply Hmem in Hu as (r & Hr & Hs & ->). eauto. }
  split.
  { intros B1 B2 world1 world2 w1 w2 results H1 H2.
    rewrite !CreateTransaction_exec, H1, H2. reflexivity. }
  intros B1 B2 world1 world2 w1 w2 results1 results2 H1 H2 Hperm Hid.
  rewrite !CreateTransaction_exec, H1, H2. simpl. unfold built.
  rewrite (candidates_order_independent Hperm Hid). reflexivity.
Qed.

(** C7 (amended). The listing of unspent outputs is the only request
    [CreateTransaction] makes in any run: nothing is sent or stored.  A
    failed listing returns its error.  Once the snapshot is listed, a
    change address without a script fails with the error of
    [PayToAddrScript], whatever the funds.  With a change script, the
    result is [NoUsableFunds] exactly when no spendable entry exists; it is
    [InsufficientFunds] when spendable entries exist, none of negative
    value, and their total stays below the requested value plus the fee
    whatever the number of inputs; and it is [InsufficientFunds] exactly
    when spendable entries exist and no number of the largest of them
    covers the requested value and the fee for that many inputs. *)
Theorem CreateTransaction_funding_errors {B : Backend} (world : World B)
    (w : RpcWalletController) (outputs : list TxOut) (feeRatePerKb : Z)
    (changeAddres : option Address) :
  let run := exec (CreateTransaction w outputs feeRatePerKb changeAddres)
               world in
  trace run = [ReqListUnspent]
  /\ (forall results e,
        (respond B ReqListUnspent world).1 = (results, Some e) ->
        result run = Returned (None, Some e))
  /\ (forall results changeScript e,
        (respond B ReqListUnspent world).1 = (results, None) ->
        PayToAddrScript changeAddres = (changeScript, Some e) ->
        result run = Returned (None, Some e))
  /\ forall results changeScript,
      (respond B ReqListUnspent world).1 = (results, None) ->
      PayToAddrScript changeAddres = (changeScript, None) ->
      (eligible results = [] <->
       result run = Returned (None, Some NoUsableFunds))
      /\ (eligible results <> [] ->
          Forall (fun u => 0 <= utxo_Amount u) (eligible results) ->
          (forall k, (1 <= k <= length (eligible results))%nat ->
             totalAmount (eligible results)
             < totalValue outputs
               + feeFor feeRatePerKb k (S (length outputs))) ->
          result run = Returned (None, Some InsufficientFunds))
      /\ (result run = Returned (None, Some InsufficientFunds) <->
          eligible results <> []
          /\ forall k, (1 <= k <= length (candidates results))%nat ->
               ~ covers feeRatePerKb outputs (candidates results) k).
Proof.
  intros run. subst run. rewrite CreateTransaction_exec. simpl.
  split; [reflexivity|]. split.
  { intros results e Hresp. rewrite Hresp. reflexivity. }
  split.
  { intros results script e Hresp Hscript. rewrite Hresp. unfold built.
    rewrite Hscript. reflexivity. }
  intros results script Hresp Hscript. rewrite Hresp. unfold built.
  rewrite Hscript.
  pose proof (candidates_Permutation results) as Hperm.
  assert (Hnil : candidates results = [] <-> eligible results = []).
  { split; intros H; rewrite H in Hperm.
    - symmetry in Hperm. apply Permutation_nil_r in Hperm. exact Hperm.
    - apply Permutation_nil_r in Hperm. exact Hperm. }
  destruct (buildTxFromOutputs_cases (candidates results) outputs
              feeRatePerKb script)
    as [[Hcands Hbuild]|[(Hcands & Hnone & Hbuild)|[tx Hbuild]]].
  - (* no candidate *)
    rewrite Hbuild. split; [tauto|]. split.
    + intros Hne. apply Hnil in Hcands. contradiction.
    + split; [intros [=]|]. intros [Hne _]. apply Hnil in Hcands.
      contradiction.
  - (* no prefix covers *)
    rewrite Hbuild. split.
    { split; [|intros [=]]. intros He. apply Hnil in He. contradiction. }
    split; [reflexivity|]. split; [|reflexivity].
    intros _. split; [|exact Hnone]. intros He. apply Hnil in He.
    contradiction.
  - (* a transaction is built *)
    rewrite Hbuild.
    pose proof Hbuild as Hfirst.
    apply buildTxFromOutputs_first in Hfirst as (k & Hk & Hcov & _ & _).
    assert (Hne : eligible results <> []).
    { intros He. apply Hnil in He. rewrite He in Hk. simpl in Hk. lia. }
    split.
    { split; [|intros [=]]. intros He. contradiction. }
    split.
    + intros _ Hpos Hshort. exfalso.
      rewrite (Permutation_length Hperm) in Hk. specialize (Hshort k Hk).
      unfold covers in Hcov.
      assert (Hpos' : Forall (fun u => 0 <= utxo_Amount u)
                        (candidates results))
        by (rewrite Hperm; exact Hpos).
      pose proof (totalAmount_take_le k Hpos') as Hle.
      rewrite (totalAmount_Permutation Hperm) in Hle. lia.
    + split; [intros [=]|]. intros [_ Hnone]. exfalso.
      exact (Hnone k Hk Hcov).
Qed.

(** C8 (amended). With the snapshot listed and a change address that
    yields a script, if some number [n >= 1] of the largest spendable
    entries covers the requested value plus the fee of a transaction with
    [n] inputs, then [CreateTransaction] succeeds.  Its inputs are the [k]
    first candidates for the least [k >= 1] that covers in this way.  The
    fee is the rate times the estimated size of [k] inputs, the requested
    outputs and one change output, per 1000 bytes, rounded down; the
    remainder (inputs minus requested outputs minus fee) is not negative.
    A remainder of at least the dust threshold is the value of one change
    output appended last: the fee is then the fee of the transaction as
    built, and inputs equal outputs plus fee.  A smaller remainder yields
    no change output: the requested outputs are the outputs, the fee is
    that of a transaction with one output more than built, and inputs
    exceed outputs plus fee by the remainder. *)
Theorem CreateTransaction_balances {B : Backend} (world : World B)
    (w : RpcWalletController) (outputs : list TxOut) (feeRatePerKb : Z)
    (changeAddres : option Address)
    (results : list ListUnspentResult) (changeScript : bytes) (n : nat) :
  (respond B ReqListUnspent world).1 = (results, None) ->
  PayToAddrScript changeAddres = (changeScript, None) ->
  (1 <= n <= length (candidates results))%nat ->
  covers feeRatePerKb outputs (candidates results) n ->
  exists tx k,
    result (exec (CreateTransaction w outputs feeRatePerKb changeAddres)
              world)
    = Returned (Some tx, None)
    /\ (1 <= k <= n)%nat
    /\ covers feeRatePerKb outputs (candidates results) k
    /\ (forall j, (1 <= j < k)%nat ->
          ~ covers feeRatePerKb outputs (candidates results) j)
    /\ let selected := take k (candidates results) in
       let fee := feeFor feeRatePerKb k (S (length outputs)) in
       let remainder := totalAmount selected - totalValue outputs - fee in
       tx_TxIn tx = utxoToTxIn <$> selected
       /\ length (tx_TxIn tx) = k
       /\ 1000 * fee <= feeRatePerKb * estimateSize k (S (length outputs))
          < 1000 * fee + 1000
       /\ 0 <= remainder
       /\ (dustThreshold <= remainder ->
           tx_TxOut tx
           = outputs ++ [{| Value := remainder; PkScript := changeScript |}]
           /\ fee = feeFor feeRatePerKb (length (tx_TxIn tx))
                      (length (tx_TxOut tx))
           /\ totalAmount selected = totalValue (tx_TxOut tx) + fee)
       /\ (remainder < dustThreshold ->
           tx_TxOut tx = outputs
           /\ fee = feeFor feeRatePerKb (length (tx_TxIn tx))
                      (S (length (tx_TxOut tx)))
           /\ totalAmount selected
              = totalValue (tx_TxOut tx) + fee + remainder).
Proof.
  intros Hresp Hscript Hn Hcovers.
  destruct (@buildTxFromOutputs_covering (candidates results) outputs
              feeRatePerKb changeScript n Hn Hcovers) as [tx Hbuild].
  pose proof Hbuild as Hshape.
  apply buildTxFromOutputs_first in Hshape as (k & Hk & Hcov & Hmin & Htx).
  exists tx, k. rewrite CreateTransaction_exec, Hresp. simpl. unfold built.
  rewrite Hscript, Hbuild. split; [reflexivity|].
  assert (Hkn : (k <= n)%nat).
  { destruct (Nat.le_gt_cases k n) as [Hle|Hgt]; [exact Hle|].
    exfalso. apply (Hmin n); [lia|exact Hcovers]. }
  split; [lia|]. split; [exact Hcov|]. split; [exact Hmin|].
  assert (Hlen : length (utxoToTxIn <$> take k (candidates results)) = k)
    by (rewrite length_fmap, length_take; lia).
  cbv zeta. rewrite Htx. cbn [tx_TxIn tx_TxOut]. rewrite Hlen.
  split; [reflexivity|]. split; [reflexivity|]. split.
  { unfold feeFor.
    pose proof (Z.mul_div_le
      (feeRatePerKb * estimateSize k (S (length outputs))) 1000).
    pose proof (Z.mul_succ_div_gt
      (feeRatePerKb * estimateSize k (S (length outputs))) 1000).
    lia. }
  unfold covers in Hcov. split; [lia|].
  unfold changeOutputs. split; intros Hdust.
  - destruct (Z.ltb_spec
      (totalAmount (take k (candidates results)) - totalValue outputs
       - feeFor feeRatePerKb k (S (length outputs))) dustThreshold);
      [lia|].
    split; [reflexivity|]. split.
    + rewrite length_app. cbn [length].
      replace (length outputs + 1)%nat with (S (length outputs)) by lia.
      reflexivity.
    + rewrite totalValue_app. simpl. lia.
  - destruct (Z.ltb_spec
      (totalAmount (take k (candidates results)) - totalValue outputs
       - feeFor feeRatePerKb k (S (length outputs))) dustThreshold);
      [|lia].
    rewrite app_nil_r. split; [reflexivity|]. split; [reflexivity|]. lia.
Qed.

(** ** Construction *)

Lemma receiverAfterAll_id (w : RpcWalletController)
    (calls : list MethodCall) :
  receiverAfterAll w calls = w.
Proof.
  unfold receiverAfterAll. revert w.
  induction calls as [|m calls IH]; intros w; simpl; [reflexivity|].
  rewrite IH. destruct m; reflexivity.
Qed.

(** C10. The constructor does not look at its [network] argument: any two
    values of it give the same outcome.  A controller it returns was built
    from non-nil chain parameters, [NetworkName] on it is their [Name], and
    stays so after any sequence of method calls. *)
Theorem NewRpcWalletControllerFromArgs_network
    (host user pass network walletPassphrase : string)
    (nodeBackend : SupportedWalletBackend) (params : option Params)
    (disableTls : bool) (rawWalletCert walletCertFilePath : string) :
  (forall network' : string,
      NewRpcWalletControllerFromArgs host user pass network' walletPassphrase
        nodeBackend params disableTls rawWalletCert walletCertFilePath
      = NewRpcWalletControllerFromArgs host user pass network walletPassphrase
          nodeBackend params disableTls rawWalletCert walletCertFilePath)
  /\ (forall w err,
      NewRpcWalletControllerFromArgs host user pass network walletPassphrase
        nodeBackend params disableTls rawWalletCert walletCertFilePath
      = Returned (Some w, err) ->
      exists p, params = Some p
        /\ NetworkName w = Name p
        /\ forall calls, NetworkName (receiverAfterAll w calls) = Name p).
Proof.
  split; [reflexivity|].
  intros w err. unfold NewRpcWalletControllerFromArgs. cbn [DisableTLS].
  destruct (negb disableTls).
  - destruct (ReadCertFile rawWalletCert walletCertFilePath) as [cert [e|]];
      [intros [=]|].
    destruct (rpcclient_New _) as [c|e]; [|intros [=]].
    destruct params as [p|]; [|intros [=]].
    intros [= <- _]. exists p. split; [reflexivity|].
    split; [reflexivity|]. intros calls. rewrite receiverAfterAll_id.
    reflexivity.
  - destruct (rpcclient_New _) as [c|e]; [|intros [=]].
    destruct params as [p|]; [|intros [=]].
    intros [= <- _]. exists p. split; [reflexivity|].
    split; [reflexivity|]. intros calls. rewrite receiverAfterAll_id.
    reflexivity.
Qed.

End Properties.

(** * The properties on the sample environment *)

Lemma nofitierStateToWalletState_witness :
  nofitierStateToWalletState 9 = Panicked (PanicUnknownNotifierState 9).
Proof.
  apply (proj2 (proj2 (proj2 (proj2 (proj2
           nofitierStateToWalletState_mapping))))); discriminate.
Defined.


Lemma CreateAndSignTx_requires_all_signed_witness :
  result (exec
    (B := Sample.scripted (Sample.snapshot, None)
            (Some Sample.signedTx, false, None) (None, 0, None))
    (CreateAndSignTx (Sample.controller 0) Sample.payment 10 (Some "bcrt1q"))
    tt)
  = Returned (None, Some ErrNotAllSigned).
Proof.
  pose proof (@CreateAndSignTx_requires_all_signed Sample.env
    (Sample.scripted (Sample.snapshot, None)
       (Some Sample.signedTx, false, None) (None, 0, None))
    tt (Sample.controller 0) Sample.payment 10 (Some "bcrt1q")) as H.
  cbv zeta in H. destruct H as [H _].
  eapply H; reflexivity.
Defined.

Lemma SignBip322NativeSegwit_rejects_before_signing_witness :
  SignBip322NativeSegwit (Sample.controller 0) [] (Some "legacy")
  = Done (None, Some ErrOnlyNativeSegwit).
Proof.
  eapply (@SignBip322NativeSegwit_rejects_before_signing Sample.env);
    reflexivity.
Defined.

Lemma SignBip322NativeSegwit_signs_with_hint_witness :
  let run :=
    exec (B := Sample.scripted ([], None) (Some Sample.signedTx, true, None)
                 (None, 0, None))
      (SignBip322NativeSegwit (Sample.controller 0) [] (Some "bcrt1q")) tt in
  trace run
  = [ReqSignRawTransactionWithWallet2
       (Some (Sample.toSignTx (Sample.toSpendTx "bcrt1q")))
       [{| Txid := "e903"; Vout := 0;
           ScriptPubKey := "0014abababababababababababababababababababab";
           Amount := AmountZero |}]]
  /\ result run
     = Returned (Some [[Byte.x30; Byte.x44]; [Byte.x02; Byte.x79]], None).
Proof.
  pose proof (@SignBip322NativeSegwit_signs_with_hint Sample.env
    (Sample.controller 0) [] (Some "bcrt1q") (Sample.toSpendTx "bcrt1q")
    {| Value := 0; PkScript := Sample.scriptOf "bcrt1q" |}
    (Sample.scripted ([], None) (Some Sample.signedTx, true, None)
       (None, 0, None)) tt eq_refl eq_refl eq_refl) as H.
  cbv zeta in H. destruct H as (Htrace & _ & _ & Hwitness).
  split; [exact Htrace|].
  exact (Hwitness Sample.signedTx Sample.signedIn eq_refl eq_refl).
Defined.

Lemma snapshot_outpointsIdentify : outpointsIdentify Sample.snapshot.
Proof.
  intros r1 r2 H1 H2 Hid _. unfold Sample.snapshot in H1, H2.
  repeat (apply elem_of_cons in H1 as [->|H1]);
    repeat (apply elem_of_cons in H2 as [->|H2]);
    try (apply elem_of_nil in H1; contradiction);
    try (apply elem_of_nil in H2; contradiction);
    first [reflexivity | discriminate Hid].
Defined.

Lemma CreateTransaction_largest_first_deterministic_witness :
  result (exec
    (B := Sample.scripted (Sample.snapshot, None) (None, false, None)
            (None, 0, None))
    (CreateTransaction (Sample.controller 0) Sample.payment 10
       (Some "bcrt1q")) tt)
  = result (exec
      (B := Sample.scripted (reverse Sample.snapshot, None)
              (None, false, None) (None, 0, None))
      (CreateTransaction (Sample.controller 1) Sample.payment 10
         (Some "bcrt1q")) tt).
Proof.
  destruct (@CreateTransaction_largest_first_deterministic Sample.env
              Sample.payment 10 (Some "bcrt1q"))
    as (_ & _ & _ & _ & _ & H).
  eapply H; [reflexivity|reflexivity| |exact snapshot_outpointsIdentify].
  symmetry. apply reverse_Permutation.
Defined.

Lemma CreateTransaction_funding_errors_witness :
  result (exec
    (B := Sample.scripted ([Sample.unspentOf 12 9000 false], None)
            (None, false, None) (None, 0, None))
    (CreateTransaction (Sample.controller 0) Sample.payment 10
       (Some "bcrt1q")) tt)
  = Returned (None, Some NoUsableFunds)
  /\ result (exec
       (B := Sample.scripted ([Sample.unspentOf 11 3000 true], None)
               (None, false, None) (None, 0, None))
       (CreateTransaction (Sample.controller 0) Sample.payment 10
          (Some "bcrt1q")) tt)
     = Returned (None, Some InsufficientFunds)
  /\ result (exec
       (B := Sample.scripted (Sample.snapshot, None)
               (None, false, None) (None, 0, None))
       (CreateTransaction (Sample.controller 0) Sample.payment 10 None) tt)
     = Returned (None, Some (External "unsupported address type")).
Proof.
  split; [|split].
  - pose proof (@CreateTransaction_funding_errors Sample.env
      (Sample.scripted ([Sample.unspentOf 12 9000 false], None)
         (None, false, None) (None, 0, None))
      tt (Sample.controller 0) Sample.payment 10 (Some "bcrt1q")) as H.
    cbv zeta in H. destruct H as (_ & _ & _ & H).
    destruct (H _ _ eq_refl eq_refl) as [Hnone _]. apply Hnone. reflexivity.
  - pose proof (@CreateTransaction_funding_errors Sample.env
      (Sample.scripted ([Sample.unspentOf 11 3000 true], None)
         (None, false, None) (None, 0, None))
      tt (Sample.controller 0) Sample.payment 10 (Some "bcrt1q")) as H.
    cbv zeta in H. destruct H as (_ & _ & _ & H).
    destruct (H _ _ eq_refl eq_refl) as (_ & Hshort & _). apply Hshort.
    + discriminate.
    + repeat constructor. discriminate.
    + intros k Hk. simpl in Hk. assert (k = 1%nat) as -> by lia.
      reflexivity.
  - pose proof (@CreateTransaction_funding_errors Sample.env
      (Sample.scripted (Sample.snapshot, None)
         (None, false, None) (None, 0, None))
      tt (Sample.controller 0) Sample.payment 10 None) as H.
    cbv zeta in H. destruct H as (_ & _ & H & _).
    exact (H _ _ _ eq_refl eq_refl).
Defined.

Lemma CreateTransaction_balances_witness :
  exists tx,
    result (exec
      (B := Sample.scripted (Sample.snapshot, None) (None, false, None)
              (None, 0, None))
      (CreateTransaction (Sample.controller 0) Sample.payment 10
         (Some "bcrt1q")) tt)
    = Returned (Some tx, None)
    /\ tx_TxIn tx = utxoToTxIn <$> take 1 (candidates Sample.snapshot)
    /\ totalAmount (take 1 (candidates Sample.snapshot))
       - totalValue Sample.payment
       - feeFor (env := Sample.env) 10 1 (S (length Sample.payment)) >= 0.
Proof.
  destruct (@CreateTransaction_balances Sample.env
    (Sample.scripted (Sample.snapshot, None) (None, false, None)
       (None, 0, None))
    tt (Sample.controller 0) Sample.payment 10 (Some "bcrt1q")
    Sample.snapshot (Sample.scriptOf "bcrt1q") 1%nat eq_refl eq_refl)
    as (tx & k & Hres & Hk & _ & _ & H).
  - vm_compute. split; [constructor|repeat constructor].
  - vm_compute. discriminate.
  - assert (k = 1%nat) as -> by (clear - Hk; lia).
    cbv zeta in H. destruct H as (Hin & _ & _ & Hrem & _).
    exists tx. split; [exact Hres|]. split; [exact Hin|].
    apply Z.le_ge. exact Hrem.
Defined.

Lemma TxDetails_error_status_witness :
  exists res status e,
    result (exec
      (B := Sample.scripted ([], None) (None, false, None)
              (None, TxFoundIndex, Some (External "connection refused")))
      (TxDetails (Sample.controller 1) (Some 5) [Byte.x6a]) tt)
    = Returned (res, status, Some e)
    /\ status = TxNotFound.
Proof.
  eexists _, _, _. split; [reflexivity|].
  exact (proj2 (@TxDetails_error_status Sample.env
    (Sample.scripted ([], None) (None, false, None)
       (None, TxFoundIndex, Some (External "connection refused")))
    (Sample.controller 1) tt)
    (Some 5) [Byte.x6a] None TxNotFound (External "connection refused")
    eq_refl).
Defined.

Lemma NewRpcWalletControllerFromArgs_network_witness :
  exists w,
    NewRpcWalletControllerFromArgs (env := Sample.env)
      "127.0.0.1:18554" "user" "pass" "mainnet" "secret" 1
      (Some {| Name := "regtest"; Net := 3669344250 |}) true "raw" "rpc.cert"
    = Returned (Some w, None)
    /\ NetworkName w = "regtest"
    /\ NetworkName (receiverAfterAll w [MNetworkName; MListOutputs true])
       = "regtest".
Proof.
  eexists. split; [reflexivity|].
  destruct (proj2 (@NewRpcWalletControllerFromArgs_network Sample.env
    "127.0.0.1:18554" "user" "pass" "mainnet" "secret" 1
    (Some {| Name := "regtest"; Net := 3669344250 |}) true "raw" "rpc.cert")
    _ _ eq_refl) as (p & Hp & Hname & Hlife).
  injection Hp as <-. split; [exact Hname|]. apply Hlife.
Defined.

(** * Inputs on which the specification's wording and the code part *)


(** C5. Past the script check, when the signing call itself fails (a
    locked wallet), the result is that failure wrapped: neither the
    not-wallet-controlled error nor a witness. *)
Lemma SignBip322NativeSegwit_signing_failure_counterexample :
  let B := Sample.scripted ([], None)
             (None, false, Some (External "wallet is locked"))
             (None, 0, None) in
  let run := exec (B := B)
    (SignBip322NativeSegwit (Sample.controller 0) [] (Some "bcrt1q")) tt in
  IsPayToWitnessPubKeyHash (Sample.scriptOf "bcrt1q") = true
  /\ length (trace run) = 1%nat
  /\ result run
     = Returned (None,
         Some (ErrorfW
           "failed to sign raw transaction while creating bip322 signature: "
           (External "wallet is locked")))
  /\ result run
     <> Returned (None,
          Some (ErrNotWalletControlled (env := Sample.env) (Some "bcrt1q")))
  /\ forall witness, result run <> Returned (Some witness, None).
Proof.
  cbv zeta. split; [reflexivity|]. split; [reflexivity|].
  split; [reflexivity|]. split; [intros H; discriminate H|].
  intros witness H. discriminate H.
Qed.

(** C7. With no unspent output at all and a nil change address,
    [CreateTransaction] returns the error of [PayToAddrScript], not
    [NoUsableFunds]. *)
Lemma CreateTransaction_NoUsableFunds_counterexample :
  let run := exec
    (B := Sample.scripted ([], None) (None, false, None) (None, 0, None))
    (CreateTransaction (Sample.controller 0) Sample.payment 10 None) tt in
  eligible [] = []
  /\ result run
     = Returned (None, Some (External "unsupported address type"))
  /\ result run <> Returned (None, Some NoUsableFunds).
Proof.
  cbv zeta. split; [reflexivity|]. split; [reflexivity|].
  intros H. discriminate H.
Qed.

(** C8. Three inputs on which the wording fails.  With spendable outputs
    of 5000 and 3000, a payment of 4000 at rate 10 is covered together with
    the fee of spending both, yet with a nil change address
    [CreateTransaction] does not succeed.  With two spendable outputs of
    3000, a payment of 5700 at rate 1000 and the fee of a transaction with
    one input stay below the spendable total, yet the result is
    [InsufficientFunds]: with the two inputs it takes the fee is larger.
    With one spendable output of 5000, a payment of 4700 at rate 1000
    succeeds without a change output, and the input exceeds the output by
    300, which is neither the fee of the transaction built, 192, nor that
    of one with a change output, 226. *)
Lemma CreateTransaction_succeeds_counterexample :
  let run := exec
    (B := Sample.scripted (Sample.snapshot, None) (None, false, None)
            (None, 0, None))
    (CreateTransaction (Sample.controller 0) Sample.payment 10 None) tt in
  let twice := [Sample.unspentOf 11 3000 true; Sample.unspentOf 12 3000 true] in
  let large := [{| Value := 5700; PkScript := Sample.scriptOf "legacy" |}] in
  let run2 := exec
    (B := Sample.scripted (twice, None) (None, false, None) (None, 0, None))
    (CreateTransaction (Sample.controller 0) large 1000 (Some "bcrt1q"))
    tt in
  let single := [Sample.unspentOf 11 5000 true] in
  let most := [{| Value := 4700; PkScript := Sample.scriptOf "legacy" |}] in
  let run3 := exec
    (B := Sample.scripted (single, None) (None, false, None) (None, 0, None))
    (CreateTransaction (Sample.controller 0) most 1000 (Some "bcrt1q"))
    tt in
  (totalValue Sample.payment
   + feeFor (env := Sample.env) 10 (length (eligible Sample.snapshot))
       (S (length Sample.payment))
   <= totalAmount (eligible Sample.snapshot)
   /\ result run
      = Returned (None, Some (External "unsupported address type"))
   /\ forall tx, result run <> Returned (Some tx, None))
  /\ (totalValue large + feeFor (env := Sample.env) 1000 1 (length large)
      <= totalValue large
         + feeFor (env := Sample.env) 1000 1 (S (length large))
      <= totalAmount (eligible twice)
      /\ result run2 = Returned (None, Some InsufficientFunds))
  /\ (exists tx,
        result run3 = Returned (Some tx, None)
        /\ tx_TxIn tx = utxoToTxIn <$> eligible single
        /\ tx_TxOut tx = most
        /\ totalAmount (eligible single) - totalValue (tx_TxOut tx) = 300
        /\ feeFor (env := Sample.env) 1000 (length (tx_TxIn tx))
             (length (tx_TxOut tx)) = 192
        /\ feeFor (env := Sample.env) 1000 (length (tx_TxIn tx))
             (S (length (tx_TxOut tx))) = 226).
Proof.
  cbv zeta. split; [|split].
  - split; [vm_compute; discriminate|]. split; [reflexivity|].
    intros tx H. discriminate H.
  - split; [|reflexivity]. split; vm_compute; discriminate.
  - eexists. split; [reflexivity|]. repeat split.
Qed.

(** * Further properties *)

Section Construction.
Context `{env : Env}.

Lemma NewRpcWalletControllerFromArgs_unfold
    (host user pass network walletPassphrase : string)
    (nodeBackend : SupportedWalletBackend) (params : option Params)
    (disableTls : bool) (rawWalletCert walletCertFilePath : string) :
  NewRpcWalletControllerFromArgs host user pass network walletPassphrase
    nodeBackend params disableTls rawWalletCert walletCertFilePath
  = match (if disableTls then inl []
           else match ReadCertFile rawWalletCert walletCertFilePath with
                | (_, Some err) => inr err
                | (cert, None) => inl cert
                end) with
    | inr err => Returned (None, Some err)
    | inl cert =>
        match rpcclient_New (connConfigFor host user pass disableTls cert) with
        | inr err => Returned (None, Some err)
        | inl client =>
            match params with
            | None => Panicked PanicNilDereference
            | Some p =>
                Returned
                  (Some {| rpc_Client := client;
                           walletPassphrase := walletPassphrase;
                           network := Name p;
                           backend := nodeBackend |},
                   None)
            end
        end
    end.
Proof.
  unfold NewRpcWalletControllerFromArgs, connConfigFor.
  destruct disableTls; simpl; [reflexivity|].
  destruct (ReadCertFile rawWalletCert walletCertFilePath) as [cert [e|]];
    reflexivity.
Qed.

(** X1. With TLS off the constructor does not read the certificate
    arguments: its outcome is the same for any of them.  In every case it
    asks [rpcclient.New] for a client with the given host, user, password
    and TLS flag, in HTTP POST mode, without connecting at once and with
    automatic reconnection, and with the bytes [ReadCertFile] returned as
    certificates when TLS is on, none when it is off.  Its outcome is then
    the error of [rpcclient.New], or else the controller around the new
    client with the given passphrase and backend; nil chain parameters
    panic at that point. *)
Theorem NewRpcWalletControllerFromArgs_connection
    (host user pass network walletPassphrase : string)
    (nodeBackend : SupportedWalletBackend) (params : option Params)
    (disableTls : bool) (rawWalletCert walletCertFilePath : string) :
  (disableTls = true ->
   forall rawWalletCert' walletCertFilePath',
     NewRpcWalletControllerFromArgs host user pass network walletPassphrase
       nodeBackend params disableTls rawWalletCert' walletCertFilePath'
     = NewRpcWalletControllerFromArgs host user pass network walletPassphrase
         nodeBackend params disableTls rawWalletCert walletCertFilePath)
  /\ forall cert,
      (disableTls = true /\ cert = [])
      \/ (disableTls = false
          /\ ReadCertFile rawWalletCert walletCertFilePath = (cert, None)) ->
      NewRpcWalletControllerFromArgs host user pass network walletPassphrase
        nodeBackend params disableTls rawWalletCert walletCertFilePath
      = match rpcclient_New
                {| Host := host; User := user; Pass := pass;
                   DisableTLS := disableTls;
                   DisableConnectOnNew := true;
                   DisableAutoReconnect := false;
                   HTTPPostMode := true;
                   Certificates := cert |} with
        | inr err => Returned (None, Some err)
        | inl client =>
            match params with
            | None => Panicked PanicNilDereference
            | Some p =>
                Returned
                  (Some {| rpc_Client := client;
                           walletPassphrase := walletPassphrase;
                           network := Name p;
                           backend := nodeBackend |},
                   None)
            end
        end.
Proof.
  split.
  - intros -> raw' path'. rewrite !NewRpcWalletControllerFromArgs_unfold.
    reflexivity.
  - intros cert H. rewrite NewRpcWalletControllerFromArgs_unfold.
    destruct H as [[-> ->]|[-> Hcert]]; [reflexivity|].
    rewrite Hcert. reflexivity.
Qed.

(** X2. When the constructor returns, it returns a controller exactly when
    it returns no error.  With TLS on, a failure to read the certificate is
    returned as it is, whatever the other arguments.  The constructor
    panics only on nil chain parameters, and never with chain parameters
    given. *)
Theorem NewRpcWalletControllerFromArgs_results
    (host user pass network walletPassphrase : string)
    (nodeBackend : SupportedWalletBackend) (params : option Params)
    (disableTls : bool) (rawWalletCert walletCertFilePath : string) :
  let made :=
    NewRpcWalletControllerFromArgs host user pass network walletPassphrase
      nodeBackend params disableTls rawWalletCert walletCertFilePath in
  (forall w err, made = Returned (w, err) -> (is_Some w <-> err = None))
  /\ (forall cert e,
        disableTls = false ->
        ReadCertFile rawWalletCert walletCertFilePath = (cert, Some e) ->
        made = Returned (None, Some e))
  /\ (forall p, made = Panicked p ->
        params = None /\ p = PanicNilDereference)
  /\ (forall chainParams, params = Some chainParams ->
        exists r, made = Returned r).
Proof.
  intros made. subst made. rewrite NewRpcWalletControllerFromArgs_unfold.
  split; [|split; [|split]].
  - intros w err.
    destruct (if disableTls then _ else _) as [cert|e];
      [|intros [= <- <-]; split; [intros [? [=]]|intros [=]]].
    destruct (rpcclient_New _) as [c|e];
      [|intros [= <- <-]; split; [intros [? [=]]|intros [=]]].
    destruct params as [p|]; [|intros [=]].
    intros [= <- <-]. split; [reflexivity|eauto].
  - intros cert e -> Hcert. rewrite Hcert. reflexivity.
  - intros p.
    destruct (if disableTls then _ else _) as [cert|e]; [|intros [=]].
    destruct (rpcclient_New _) as [c|e]; [|intros [=]].
    destruct params as [chainParams|]; [intros [=]|].
    intros [= <-]. split; reflexivity.
  - intros chainParams ->.
    destruct (if disableTls then _ else _) as [cert|e]; [|eauto].
    destruct (rpcclient_New _) as [c|e]; eauto.
Qed.

(** X3. [NewRpcWalletController] panics exactly on a configuration that is
    nil or lacks one of its three groups, with a nil dereference.  On any
    other configuration it is the call of [NewRpcWalletControllerFromArgs]
    on the fields of the groups, with the name of the active chain
    parameters as [network] and the same parameters as [params]: it
    returns, and a controller it returns comes without error and carries
    that name, the configured wallet passphrase and the configured wallet
    backend. *)
Theorem NewRpcWalletController_from_config (scfg : option Config) :
  (configured scfg = false ->
   NewRpcWalletController scfg = Panicked PanicNilDereference)
  /\ (configured scfg = true ->
      exists r, NewRpcWalletController scfg = Returned r)
  /\ forall c walletRpcConfig walletConfig btcNodeBackendConfig,
       scfg = Some c ->
       cfg_WalletRpcConfig c = Some walletRpcConfig ->
       cfg_WalletConfig c = Some walletConfig ->
       cfg_BtcNodeBackendConfig c = Some btcNodeBackendConfig ->
       NewRpcWalletController scfg
       = NewRpcWalletControllerFromArgs
           (wrc_Host walletRpcConfig) (wrc_User walletRpcConfig)
           (wrc_Pass walletRpcConfig) (Name (cfg_ActiveNetParams c))
           (wc_WalletPass walletConfig)
           (bnb_ActiveWalletBackend btcNodeBackendConfig)
           (Some (cfg_ActiveNetParams c))
           (wrc_DisableTls walletRpcConfig)
           (wrc_RawRPCWalletCert walletRpcConfig)
           (wrc_RPCWalletCert walletRpcConfig)
       /\ forall w err,
            NewRpcWalletController scfg = Returned (Some w, err) ->
            err = None
            /\ NetworkName w = Name (cfg_ActiveNetParams c)
            /\ walletPassphrase w = wc_WalletPass walletConfig
            /\ backend w = bnb_ActiveWalletBackend btcNodeBackendConfig.
Proof.
  assert (Hret : forall host user pass network pw nodeBackend p tls raw path,
             exists r,
               NewRpcWalletControllerFromArgs host user pass network pw
                 nodeBackend (Some p) tls raw path = Returned r).
  { intros. rewrite NewRpcWalletControllerFromArgs_unfold.
    destruct (if tls then _ else _) as [cert|e]; [|eauto].
    destruct (rpcclient_New _) as [client|e]; eauto. }
  split.
  { destruct scfg as [c|]; [|reflexivity]. simpl.
    destruct (cfg_WalletRpcConfig c) as [walletRpcConfig|]; [|reflexivity].
    destruct (cfg_WalletConfig c) as [walletConfig|]; [|reflexivity].
    destruct (cfg_BtcNodeBackendConfig c) as [btcNodeBackendConfig|];
      [|reflexivity].
    rewrite !bool_decide_eq_true_2 by eauto. discriminate. }
  split.
  { destruct scfg as [c|]; [|discriminate]. simpl.
    destruct (cfg_WalletRpcConfig c) as [walletRpcConfig|];
      [|rewrite bool_decide_eq_false_2 by (intros [? [=]]); discriminate].
    destruct (cfg_WalletConfig c) as [walletConfig|];
      [|rewrite (bool_decide_eq_false_2 (is_Some None))
          by (intros [? [=]]);
        rewrite andb_false_r; discriminate].
    destruct (cfg_BtcNodeBackendConfig c) as [btcNodeBackendConfig|];
      [|rewrite (bool_decide_eq_false_2 (is_Some None))
          by (intros [? [=]]);
        rewrite andb_false_r; discriminate].
    intros _. apply Hret. }
  intros c walletRpcConfig walletConfig btcNodeBackendConfig -> Hrpc Hwallet
    Hnode.
  simpl. rewrite Hrpc, Hwallet, Hnode. split; [reflexivity|].
  rewrite NewRpcWalletControllerFromArgs_unfold.
  destruct (if wrc_DisableTls _ then _ else _) as [cert|e];
    [|intros w err [=]].
  destruct (rpcclient_New _) as [client|e]; [|intros w err [=]].
  intros w err [= <- <-]. repeat split.
Qed.

(** X4. On a controller the constructor returned, [UnlockWallet] sends one
    request, the passphrase handed to the constructor with the given
    timeout, and returns the backend's answer as it is. *)
Theorem UnlockWallet_after_construction {B : Backend} (world : World B)
    (host user pass network walletPassphrase : string)
    (nodeBackend : SupportedWalletBackend) (params : option Params)
    (disableTls : bool) (rawWalletCert walletCertFilePath : string)
    (w : RpcWalletController) (err : option error) (timoutSec : Z) :
  NewRpcWalletControllerFromArgs host user pass network walletPassphrase
    nodeBackend params disableTls rawWalletCert walletCertFilePath
  = Returned (Some w, err) ->
  let req := ReqWalletPassphrase walletPassphrase timoutSec in
  exec (UnlockWallet w timoutSec) world
  = mkRun (Returned (respond B req world).1) [req] (respond B req world).2.
Proof.
  rewrite NewRpcWalletControllerFromArgs_unfold.
  destruct (if disableTls then _ else _) as [cert|e]; [|intros [=]].
  destruct (rpcclient_New _) as [c|e]; [|intros [=]].
  destruct params as [p|]; [|intros [=]].
  intros [= <- <-] req. unfold UnlockWallet.
  exact (exec_call req world).
Qed.

End Construction.

Section Confirmation.
Context `{env : Env}.

Lemma nofitierStateToWalletState_inv (state : TxConfStatus)
    (status : TxStatus) :
  nofitierStateToWalletState state = Returned status ->
  match status with
  | TxNotFound => state = TxNotFoundIndex \/ state = TxNotFoundManually
  | TxInMemPool => state = TxFoundMempool
  | TxInChain => state = TxFoundIndex \/ state = TxFoundManually
  end.
Proof.
  unfold nofitierStateToWalletState.
  destruct (Z.eqb_spec state TxNotFoundIndex); [intros [= <-]; auto|].
  destruct (Z.eqb_spec state TxFoundMempool); [intros [= <-]; auto|].
  destruct (Z.eqb_spec state TxFoundIndex); [intros [= <-]; auto|].
  destruct (Z.eqb_spec state TxNotFoundManually); [intros [= <-]; auto|].
  destruct (Z.eqb_spec state TxFoundManually); [intros [= <-]; auto|].
  intros [=].
Qed.

Lemma nofitierStateToWalletState_panic (state : TxConfStatus) (p : panic) :
  nofitierStateToWalletState state = Panicked p ->
  p = PanicUnknownNotifierState state
  /\ state <> TxNotFoundIndex /\ state <> TxNotFoundManually
  /\ state <> TxFoundMempool /\ state <> TxFoundIndex
  /\ state <> TxFoundManually.
Proof.
  unfold nofitierStateToWalletState.
  destruct (Z.eqb_spec state TxNotFoundIndex); [intros [=]|].
  destruct (Z.eqb_spec state TxFoundMempool); [intros [=]|].
  destruct (Z.eqb_spec state TxFoundIndex); [intros [=]|].
  destruct (Z.eqb_spec state TxNotFoundManually); [intros [=]|].
  destruct (Z.eqb_spec state TxFoundManually); [intros [=]|].
  intros [= <-]. auto 10.
Qed.

Lemma getTxDetails_trace {B : Backend} (w : RpcWalletController)
    (req : ConfRequest) (msg : string) (world : World B) :
  trace (exec (getTxDetails w req msg) world)
  = [ReqConfDetailsFromTxIndex req msg].
Proof.
  unfold getTxDetails. simpl.
  destruct (respond B (ReqConfDetailsFromTxIndex req msg) world)
    as [[[res state] [e|]] world']; simpl; [reflexivity|].
  destruct (nofitierStateToWalletState state); reflexivity.
Qed.

(** How [TxDetails] continues once the backend field is looked at. *)
Lemma TxDetails_dispatch (w : RpcWalletController) (txHash : option Hash)
    (pkScript : bytes) :
  (exists e, (NewConfRequest txHash pkScript).2 = Some e
     /\ TxDetails w txHash pkScript = Done (None, TxNotFound, Some e))
  \/ ((NewConfRequest txHash pkScript).2 = None
      /\ backend w <> BitcoindWalletBackend
      /\ backend w <> BtcwalletWalletBackend
      /\ TxDetails w txHash pkScript
         = Done (None, TxNotFound, Some ErrInvalidBackend))
  \/ ((NewConfRequest txHash pkScript).2 = None
      /\ exists msg,
        ((backend w = BitcoindWalletBackend
          /\ msg = txNotFoundErrMsgBitcoind)
         \/ (backend w = BtcwalletWalletBackend
             /\ msg = txNotFoundErrMsgBtcd))
        /\ TxDetails w txHash pkScript
           = getTxDetails w (NewConfRequest txHash pkScript).1 msg).
Proof.
  unfold TxDetails.
  destruct (NewConfRequest txHash pkScript) as [req [e|]]; simpl.
  { left. eauto. }
  right. destruct (Z.eqb_spec (backend w) BitcoindWalletBackend) as [Hb|Hb].
  { right. split; [reflexivity|]. exists txNotFoundErrMsgBitcoind. auto. }
  destruct (Z.eqb_spec (backend w) BtcwalletWalletBackend) as [Hw|Hw].
  { right. split; [reflexivity|]. exists txNotFoundErrMsgBtcd. auto. }
  left. auto.
Qed.

(** X5. With a confirmation request built, [TxDetails] on a supported
    backend issues exactly one request: the index lookup of that
    confirmation request, with the not-found message of the backend's
    dialect, the bitcoind one on the bitcoind backend and the btcd one on
    the btcwallet backend. *)
Theorem TxDetails_request {B : Backend} (world : World B)
    (w : RpcWalletController) (txHash : option Hash) (pkScript : bytes)
    (req : ConfRequest) :
  NewConfRequest txHash pkScript = (req, None) ->
  (backend w = BitcoindWalletBackend ->
   trace (exec (TxDetails w txHash pkScript) world)
   = [ReqConfDetailsFromTxIndex req
        "No such mempool or blockchain transaction"])
  /\ (backend w = BtcwalletWalletBackend ->
      trace (exec (TxDetails w txHash pkScript) world)
      = [ReqConfDetailsFromTxIndex req
           "No information available about transaction"]).
Proof.
  intros Hreq.
  destruct (TxDetails_dispatch w txHash pkScript)
    as [(e & He & _)|[(_ & Hb & Hw & _)|(_ & msg & Hmsg & ->)]].
  - rewrite Hreq in He. discriminate He.
  - split; intros H; contradiction.
  - rewrite getTxDetails_trace, Hreq. cbn [fst].
    split; intros H; destruct Hmsg as [[Hb ->]|[Hw ->]]; try reflexivity.
    + exfalso. apply backends_distinct. congruence.
    + exfalso. apply backends_distinct. congruence.
Qed.

(** X6. [TxDetails] reports a transaction as found only on the backend's
    word: a returned status other than [TxNotFound] comes without error,
    after exactly one index lookup that the backend answered without
    error, with the record the backend gave; [TxInMemPool] stands for the
    mempool state, [TxInChain] for one of the two found-in-chain
    states. *)
Theorem TxDetails_found_sound {B : Backend} (world : World B)
    (w : RpcWalletController) (txHash : option Hash) (pkScript : bytes)
    (res : option TxConfirmation) (status : TxStatus) (err : option error) :
  result (exec (TxDetails w txHash pkScript) world)
  = Returned (res, status, err) ->
  status <> TxNotFound ->
  err = None
  /\ exists req msg state,
      trace (exec (TxDetails w txHash pkScript) world)
      = [ReqConfDetailsFromTxIndex req msg]
      /\ (respond B (ReqConfDetailsFromTxIndex req msg) world).1
         = (res, state, None)
      /\ ((status = TxInMemPool /\ state = TxFoundMempool)
          \/ (status = TxInChain
              /\ (state = TxFoundIndex \/ state = TxFoundManually))).
Proof.
  destruct (TxDetails_dispatch w txHash pkScript)
    as [(e & _ & ->)|[(_ & _ & _ & ->)|(_ & msg & _ & ->)]].
  - simpl. intros [= _ <- _] H. contradiction.
  - simpl. intros [= _ <- _] H. contradiction.
  - rewrite getTxDetails_exec, getTxDetails_trace.
    destruct (respond B _ world).1 as [[res' state] [e|]] eqn:Hanswer.
    { intros [= _ <- _] H. contradiction. }
    destruct (nofitierStateToWalletState state) as [status'|p] eqn:Hmap;
      [|intros [=]].
    intros [= <- <- <-] Hfound. split; [reflexivity|].
    exists (NewConfRequest txHash pkScript).1, msg, state.
    split; [reflexivity|]. split; [exact Hanswer|].
    apply nofitierStateToWalletState_inv in Hmap.
    destruct status'; [contradiction|left; auto|right; auto].
Qed.

(** X7. [TxDetails] panics in one situation only: the index lookup was
    made and answered without error, with a state outside the five known
    ones.  A state that comes with an error is not looked at: the lookup
    helper then returns that error with [TxNotFound] and no record,
    whatever the state. *)
Theorem TxDetails_panics_only_on_unknown_state {B : Backend}
    (world : World B) (w : RpcWalletController) :
  (forall txHash pkScript p,
      result (exec (TxDetails w txHash pkScript) world) = Panicked p ->
      exists req msg res state,
        trace (exec (TxDetails w txHash pkScript) world)
        = [ReqConfDetailsFromTxIndex req msg]
        /\ (respond B (ReqConfDetailsFromTxIndex req msg) world).1
           = (res, state, None)
        /\ p = PanicUnknownNotifierState state
        /\ state <> TxNotFoundIndex /\ state <> TxNotFoundManually
        /\ state <> TxFoundMempool /\ state <> TxFoundIndex
        /\ state <> TxFoundManually)
  /\ (forall req msg res state e,
      (respond B (ReqConfDetailsFromTxIndex req msg) world).1
      = (res, state, Some e) ->
      result (exec (getTxDetails w req msg) world)
      = Returned (None, TxNotFound, Some e)).
Proof.
  split.
  - intros txHash pkScript p.
    destruct (TxDetails_dispatch w txHash pkScript)
      as [(e & _ & ->)|[(_ & _ & _ & ->)|(_ & msg & _ & ->)]];
      [intros [=]..|].
    rewrite getTxDetails_exec, getTxDetails_trace.
    destruct (respond B _ world).1 as [[res state] [e|]] eqn:Hanswer;
      [intros [=]|].
    destruct (nofitierStateToWalletState state) as [status|p'] eqn:Hmap;
      [intros [=]|].
    intros [= <-]. exists (NewConfRequest txHash pkScript).1, msg, res, state.
    split; [reflexivity|]. split; [exact Hanswer|].
    apply nofitierStateToWalletState_panic, Hmap.
  - intros req msg res state e Hanswer. rewrite getTxDetails_exec, Hanswer.
    reflexivity.
Qed.

End Confirmation.

Section Requests.
Context `{env : Env}.

Lemma SignRawTransaction_exec {B : Backend} (world : World B)
    (w : RpcWalletController) (tx : option MsgTx) :
  (backend w = BitcoindWalletBackend
   /\ exec (SignRawTransaction w tx) world
      = mkRun
          (Returned (respond B (ReqSignRawTransactionWithWallet tx) world).1)
          [ReqSignRawTransactionWithWallet tx]
          (respond B (ReqSignRawTransactionWithWallet tx) world).2)
  \/ (backend w = BtcwalletWalletBackend
      /\ exec (SignRawTransaction w tx) world
         = mkRun (Returned (respond B (ReqSignRawTransaction tx) world).1)
             [ReqSignRawTransaction tx]
             (respond B (ReqSignRawTransaction tx) world).2)
  \/ (backend w <> BitcoindWalletBackend
      /\ backend w <> BtcwalletWalletBackend
      /\ exec (SignRawTransaction w tx) world
         = mkRun (Returned (None, false, Some ErrInvalidBackend)) [] world).
Proof.
  destruct (Z.eq_dec (backend w) BitcoindWalletBackend) as [Hb|Hb].
  { left. split; [exact Hb|].
    rewrite (proj1 (SignRawTransaction_supported w tx) Hb).
    exact (exec_call (ReqSignRawTransactionWithWallet tx) world). }
  destruct (Z.eq_dec (backend w) BtcwalletWalletBackend) as [Hw|Hw].
  { right. left. split; [exact Hw|].
    rewrite (proj2 (SignRawTransaction_supported w tx) Hw).
    exact (exec_call (ReqSignRawTransaction tx) world). }
  right. right. split; [exact Hb|]. split; [exact Hw|].
  unfold SignRawTransaction.
  apply Z.eqb_neq in Hb, Hw. rewrite Hb, Hw. reflexivity.
Qed.

Lemma CreateAndSignTx_exec {B : Backend} (world : World B)
    (w : RpcWalletController) (outputs : list TxOut) (feeRatePerKb : Z)
    (changeAddress : option Address) :
  let made := exec (CreateTransaction w outputs feeRatePerKb changeAddress)
                world in
  exec (CreateAndSignTx w outputs feeRatePerKb changeAddress) world
  = match result made with
    | Returned (tx, None) =>
        let sign := exec (SignRawTransaction w tx) (final made) in
        mkRun
          match result sign with
          | Returned (_, _, Some e) => Returned (None, Some e)
          | Returned (fundedTx, signed, None) =>
              if signed then Returned (fundedTx, None)
              else Returned (None, Some ErrNotAllSigned)
          | Panicked p => Panicked p
          end
          (ReqListUnspent :: trace sign) (final sign)
    | Returned (_, Some e) =>
        mkRun (Returned (None, Some e)) [ReqListUnspent] (final made)
    | Panicked p => mkRun (Panicked p) [ReqListUnspent] (final made)
    end.
Proof.
  intros made. unfold CreateAndSignTx. rewrite exec_bind. fold made.
  assert (Htrace : trace made = [ReqListUnspent])
    by (subst made; rewrite CreateTransaction_exec; reflexivity).
  rewrite Htrace.
  destruct (result made) as [[tx [e|]]|p]; [reflexivity| |reflexivity].
  cbn zeta iota beta. rewrite exec_bind.
  destruct (result (exec (SignRawTransaction w tx) (final made)))
    as [[[fundedTx signed] [e|]]|p]; simpl;
    [rewrite app_nil_r; reflexivity| |reflexivity].
  destruct signed; simpl; rewrite app_nil_r; reflexivity.
Qed.

(** X8. When building the transaction fails, [CreateAndSignTx] returns
    that very error with no transaction and makes no signing request: the
    listing of unspent outputs is the only request of the run. *)
Theorem CreateAndSignTx_build_failure {B : Backend} (world : World B)
    (w : RpcWalletController) (outputs : list TxOut) (feeRatePerKb : Z)
    (changeAddress : option Address) (tx : option MsgTx) (e : error) :
  let made := exec (CreateTransaction w outputs feeRatePerKb changeAddress)
                world in
  result made = Returned (tx, Some e) ->
  exec (CreateAndSignTx w outputs feeRatePerKb changeAddress) world
  = mkRun (Returned (None, Some e)) [ReqListUnspent] (final made).
Proof.
  intros made Hmade. rewrite CreateAndSignTx_exec. fold made.
  rewrite Hmade. reflexivity.
Qed.

(** X9. When the transaction is built, [CreateAndSignTx] asks for its
    signature right after the listing, in the backend's dialect and on
    exactly the transaction built: the wallet form on the bitcoind
    backend, the plain form on the btcwallet backend.  On any other
    backend value the failure shows only now, after the listing and the
    building: no signing request is made and the invalid-backend error is
    returned. *)
Theorem CreateAndSignTx_requests {B : Backend} (world : World B)
    (w : RpcWalletController) (outputs : list TxOut) (feeRatePerKb : Z)
    (changeAddress : option Address) (tx : option MsgTx) :
  let made := exec (CreateTransaction w outputs feeRatePerKb changeAddress)
                world in
  let whole := exec (CreateAndSignTx w outputs feeRatePerKb changeAddress)
                 world in
  result made = Returned (tx, None) ->
  (backend w = BitcoindWalletBackend ->
   trace whole = [ReqListUnspent; ReqSignRawTransactionWithWallet tx])
  /\ (backend w = BtcwalletWalletBackend ->
      trace whole = [ReqListUnspent; ReqSignRawTransaction tx])
  /\ (backend w <> BitcoindWalletBackend ->
      backend w <> BtcwalletWalletBackend ->
      whole = mkRun (Returned (None, Some ErrInvalidBackend))
                [ReqListUnspent] (final made)).
Proof.
  intros made whole Hmade. subst whole. rewrite CreateAndSignTx_exec.
  fold made. rewrite Hmade. cbv zeta.
  destruct (SignRawTransaction_exec (final made) w tx)
    as [[Hb ->]|[[Hw ->]|(Hb & Hw & ->)]]; simpl.
  - split; [reflexivity|]. split; [|contradiction].
    intros Hw. exfalso. apply backends_distinct. congruence.
  - split; [|split; [reflexivity|]].
    + intros Hb. exfalso. apply backends_distinct. congruence.
    + intros Hb. contradiction.
  - split; [contradiction|]. split; [contradiction|]. reflexivity.
Qed.

Lemma SignBip322NativeSegwit_trace {B : Backend} (world : World B)
    (w : RpcWalletController) (msg : bytes) (address : option Address) :
  trace (exec (SignBip322NativeSegwit w msg address) world) = []
  \/ exists toSign inputs,
       trace (exec (SignBip322NativeSegwit w msg address) world)
       = [ReqSignRawTransactionWithWallet2 toSign inputs].
Proof.
  unfold SignBip322NativeSegwit.
  destruct (GetToSpendTx msg address) as [toSpend [e|]]; [left; reflexivity|].
  destruct toSpend as [toSpend|]; [|left; reflexivity].
  destruct (tx_TxOut toSpend !! 0%nat) as [out0|]; [|left; reflexivity].
  destruct (IsPayToWitnessPubKeyHash (PkScript out0));
    [|left; reflexivity].
  right. eexists _, _. simpl.
  destruct (respond B _ world) as [[[signed all] [e|]] world']; simpl;
    [reflexivity|].
  destruct all; simpl; [|reflexivity].
  destruct signed as [signed|]; [|reflexivity].
  destruct (tx_TxIn signed !! 0%nat); reflexivity.
Qed.

Lemma TxDetails_trace {B : Backend} (world : World B)
    (w : RpcWalletController) (txHash : option Hash) (pkScript : bytes) :
  trace (exec (TxDetails w txHash pkScript) world) = []
  \/ exists req msg,
       trace (exec (TxDetails w txHash pkScript) world)
       = [ReqConfDetailsFromTxIndex req msg].
Proof.
  destruct (TxDetails_dispatch w txHash pkScript)
    as [(e & _ & ->)|[(_ & _ & _ & ->)|(_ & msg & _ & ->)]];
    [left; reflexivity..|].
  right. eexists _, _. apply getTxDetails_trace.
Qed.

Lemma ListOutputs_trace {B : Backend} (world : World B)
    (w : RpcWalletController) (onlySpendable : bool) :
  trace (exec (ListOutputs w onlySpendable) world) = [ReqListUnspent].
Proof.
  unfold ListOutputs. simpl.
  destruct (respond B ReqListUnspent world) as [[results [e|]] world'];
    reflexivity.
Qed.

Lemma CreateAndSignTx_trace {B : Backend} (world : World B)
    (w : RpcWalletController) (outputs : list TxOut) (feeRatePerKb : Z)
    (changeAddress : option Address) :
  let whole := exec (CreateAndSignTx w outputs feeRatePerKb changeAddress)
                 world in
  trace whole = [ReqListUnspent]
  \/ exists tx,
       trace whole = [ReqListUnspent; ReqSignRawTransactionWithWallet tx]
       \/ trace whole = [ReqListUnspent; ReqSignRawTransaction tx].
Proof.
  intros whole. subst whole. rewrite CreateAndSignTx_exec.
  destruct (result (exec (CreateTransaction _ _ _ _) _))
    as [[tx [e|]]|p]; [left; reflexivity| |left; reflexivity].
  cbv zeta.
  destruct (SignRawTransaction_exec
              (final (exec (CreateTransaction w outputs feeRatePerKb
                              changeAddress) world)) w tx)
    as [[_ ->]|[[_ ->]|(_ & _ & ->)]]; simpl; eauto.
Qed.

(** X10. What each method asks of the backend, in any run: [UnlockWallet]
    and [SendRawTransaction] make their one request; [ListOutputs] and
    [CreateTransaction] make one listing; [SignRawTransaction], [TxDetails]
    and [SignBip322NativeSegwit] make at most one request, a signing
    request, an index lookup, and the signing request with explicit hints;
    [CreateAndSignTx] makes the listing and then at most one signing
    request. *)
Theorem method_requests {B : Backend} (world : World B)
    (w : RpcWalletController) :
  (forall timoutSec,
      trace (exec (UnlockWallet w timoutSec) world)
      = [ReqWalletPassphrase (walletPassphrase w) timoutSec])
  /\ (forall tx allowHighFees,
      trace (exec (SendRawTransaction w tx allowHighFees) world)
      = [ReqSendRawTransaction tx allowHighFees])
  /\ (forall onlySpendable,
      trace (exec (ListOutputs w onlySpendable) world) = [ReqListUnspent])
  /\ (forall outputs feeRatePerKb changeAddres,
      trace (exec (CreateTransaction w outputs feeRatePerKb changeAddres)
               world)
      = [ReqListUnspent])
  /\ (forall tx,
      let requests := trace (exec (SignRawTransaction w tx) world) in
      (length requests <= 1)%nat
      /\ Forall (fun r => isSigning r = true) requests)
  /\ (forall txHash pkScript,
      let requests := trace (exec (TxDetails w txHash pkScript) world) in
      (length requests <= 1)%nat
      /\ Forall (fun r => isLookup r = true) requests)
  /\ (forall msg address,
      let requests :=
        trace (exec (SignBip322NativeSegwit w msg address) world) in
      (length requests <= 1)%nat
      /\ Forall (fun r => isSigning r = true) requests)
  /\ (forall outputs feeRatePerKb changeAddress,
      exists signing,
        trace (exec (CreateAndSignTx w outputs feeRatePerKb changeAddress)
                 world)
        = ReqListUnspent :: signing
        /\ (length signing <= 1)%nat
        /\ Forall (fun r => isSigning r = true) signing).
Proof.
  split; [intros t; unfold UnlockWallet; simpl;
          destruct (respond B _ world); reflexivity|].
  split; [intros tx f; unfold SendRawTransaction; simpl;
          destruct (respond B _ world); reflexivity|].
  split; [intros b; apply ListOutputs_trace|].
  split; [intros o f a; rewrite CreateTransaction_exec; reflexivity|].
  split.
  { intros tx requests. subst requests.
    destruct (SignRawTransaction_exec world w tx)
      as [[_ ->]|[[_ ->]|(_ & _ & ->)]]; simpl;
      (split; [lia|repeat constructor]). }
  split.
  { intros txHash pkScript requests. subst requests.
    destruct (TxDetails_trace world w txHash pkScript)
      as [->|(req & msg & ->)]; simpl; (split; [lia|repeat constructor]). }
  split.
  { intros msg address requests. subst requests.
    destruct (SignBip322NativeSegwit_trace world w msg address)
      as [->|(toSign & inputs & ->)]; simpl;
      (split; [lia|repeat constructor]). }
  intros outputs feeRatePerKb changeAddress.
  destruct (CreateAndSignTx_trace world w outputs feeRatePerKb changeAddress)
    as [->|(tx & [->| ->])]; eexists; (split; [reflexivity|]); simpl;
    (split; [lia|repeat constructor]).
Qed.

(** X11. Only [SendRawTransaction] broadcasts and only [UnlockWallet]
    sends the wallet passphrase: no request of [ListOutputs],
    [CreateTransaction], [SignRawTransaction], [CreateAndSignTx],
    [TxDetails] or [SignBip322NativeSegwit] is a broadcast or carries the
    passphrase, in any run against any backend. *)
Theorem no_broadcast_no_passphrase {B : Backend} (world : World B)
    (w : RpcWalletController) :
  let quiet (requests : list Request) :=
    Forall (fun r => isBroadcast r = false /\ isPassphrase r = false)
      requests in
  (forall onlySpendable,
      quiet (trace (exec (ListOutputs w onlySpendable) world)))
  /\ (forall outputs feeRatePerKb changeAddres,
      quiet (trace (exec (CreateTransaction w outputs feeRatePerKb
                            changeAddres) world)))
  /\ (forall tx, quiet (trace (exec (SignRawTransaction w tx) world)))
  /\ (forall outputs feeRatePerKb changeAddress,
      quiet (trace (exec (CreateAndSignTx w outputs feeRatePerKb
                            changeAddress) world)))
  /\ (forall txHash pkScript,
      quiet (trace (exec (TxDetails w txHash pkScript) world)))
  /\ (forall msg address,
      quiet (trace (exec (SignBip322NativeSegwit w msg address) world))).
Proof.
  intros quiet. subst quiet. cbv beta.
  split; [intros b; rewrite ListOutputs_trace; repeat constructor|].
  split; [intros o f a; rewrite CreateTransaction_exec;
          repeat constructor|].
  split.
  { intros tx.
    destruct (SignRawTransaction_exec world w tx)
      as [[_ ->]|[[_ ->]|(_ & _ & ->)]]; repeat constructor. }
  split.
  { intros outputs feeRatePerKb changeAddress.
    destruct (CreateAndSignTx_trace world w outputs feeRatePerKb
                changeAddress) as [->|(tx & [->| ->])];
      repeat constructor. }
  split.
  { intros txHash pkScript.
    destruct (TxDetails_trace world w txHash pkScript)
      as [->|(req & msg & ->)]; repeat constructor. }
  intros msg address.
  destruct (SignBip322NativeSegwit_trace world w msg address)
    as [->|(toSign & inputs & ->)]; repeat constructor.
Qed.

End Requests.

Section Hex.

Lemma hex_EncodeToString_length (src : bytes) :
  String.length (hex_EncodeToString src) = (2 * length src)%nat.
Proof. induction src as [|b src IH]; simpl; [reflexivity|]. rewrite IH. lia. Qed.

Lemma hex_DecodeString_encoded_byte (b : Byte.byte) (rest : string) :
  hex_DecodeString
    (String (hex_digit (Byte.to_N b / 16)%N)
       (String (hex_digit (Byte.to_N b mod 16)%N) rest))
  = (b :: (hex_DecodeString rest).1, (hex_DecodeString rest).2).
Proof.
  destruct b; cbn [hex_DecodeString];
    destruct (hex_DecodeString rest); reflexivity.
Qed.

Lemma hex_decode_encode (src : bytes) :
  hex_DecodeString (hex_EncodeToString src) = (src, None).
Proof.
  induction src as [|b src IH]; [reflexivity|].
  cbn [hex_EncodeToString]. rewrite hex_DecodeString_encoded_byte, IH.
  reflexivity.
Qed.

(** X12. Decoding undoes encoding: [hex.DecodeString] on the output of
    [hex.EncodeToString] gives the bytes back, without error; the encoding
    has two characters per byte. *)
Theorem hex_DecodeString_EncodeToString (src : bytes) :
  hex_DecodeString (hex_EncodeToString src) = (src, None)
  /\ String.length (hex_EncodeToString src) = (2 * length src)%nat.
Proof.
  split.
  - induction src as [|b src IH]; [reflexivity|].
    cbn [hex_EncodeToString]. rewrite hex_DecodeString_encoded_byte, IH.
    reflexivity.
  - induction src as [|b src IH]; [reflexivity|].
    cbn [hex_EncodeToString String.length length]. rewrite IH. lia.
Qed.

Lemma string_pair_ind (P : string -> Prop) :
  P EmptyString ->
  (forall c, P (String c EmptyString)) ->
  (forall c d s, P s -> P (String c (String d s))) ->
  forall s, P s.
Proof.
  intros Hnil Hone Hpair s.
  assert (H : P s /\ forall c, P (String c s)).
  { induction s as [|d s [IHs IHc]]; [auto|]. split; [apply IHc|].
    intros c. apply Hpair, IHs. }
  apply H.
Qed.

Lemma hex_decode_length (s : string) :
  ((hex_DecodeString s).2 = None ->
   String.length s = (2 * length (hex_DecodeString s).1)%nat)
  /\ (Nat.Odd (String.length s) -> (hex_DecodeString s).2 <> None).
Proof.
  induction s as [|c|c d s [IHok IHodd]] using string_pair_ind.
  - split; [reflexivity|]. intros [k Hk]. simpl in Hk. lia.
  - split.
    + cbn [hex_DecodeString]. destruct (fromHexChar c); intros [=].
    + intros _. cbn [hex_DecodeString]. destruct (fromHexChar c); intros [=].
  - cbn [hex_DecodeString].
    destruct (fromHexChar c) as [a|]; [|split; [intros [=]|intros _ [=]]].
    destruct (fromHexChar d) as [b|]; [|split; [intros [=]|intros _ [=]]].
    destruct (hex_DecodeString s) as [decoded err]. simpl in *. split.
    + intros Herr. rewrite (IHok Herr). lia.
    + intros [k Hk]. apply IHodd. exists (k - 1)%nat. lia.
Qed.

End Hex.

Section OwnershipProof.
Context `{env : Env}.

(** X13. Before the script check, [SignBip322NativeSegwit] makes no
    request: a failure to build the to-spend transaction is returned
    wrapped, and a to-spend transaction that is nil or has no output makes
    the method panic on its unchecked access to output 0. *)
Theorem SignBip322NativeSegwit_before_the_check (w : RpcWalletController)
    (msg : bytes) (address : option Address) :
  (forall toSpend e,
      GetToSpendTx msg address = (toSpend, Some e) ->
      SignBip322NativeSegwit w msg address
      = Done (None, Some (ErrorfW "failed to bip322 to spend tx: " e)))
  /\ (GetToSpendTx msg address = (None, None) ->
      SignBip322NativeSegwit w msg address = Crash PanicNilDereference)
  /\ (forall toSpend,
      GetToSpendTx msg address = (Some toSpend, None) ->
      tx_TxOut toSpend = [] ->
      SignBip322NativeSegwit w msg address
      = Crash (PanicIndexOutOfRange 0 0)).
Proof.
  unfold SignBip322NativeSegwit. split; [|split].
  - intros toSpend e ->. reflexivity.
  - intros ->. reflexivity.
  - intros toSpend -> ->. reflexivity.
Qed.

(** X14. After the script check, when the signer answers without error
    that all inputs are signed, the method reads input 0 of the returned
    transaction unchecked: a nil transaction or one without inputs makes
    it panic, after its one signing request. *)
Theorem SignBip322NativeSegwit_unchecked_answer
    (w : RpcWalletController) (msg : bytes) (address : option Address)
    (toSpend : MsgTx) (out0 : TxOut)
    (B : Backend) (world : World B) :
  GetToSpendTx msg address = (Some toSpend, None) ->
  tx_TxOut toSpend !! 0%nat = Some out0 ->
  IsPayToWitnessPubKeyHash (PkScript out0) = true ->
  let req := ReqSignRawTransactionWithWallet2 (GetToSignTx toSpend)
               [bip322Hint toSpend out0] in
  let run := exec (SignBip322NativeSegwit w msg address) world in
  ((respond B req world).1 = (None, true, None) ->
   result run = Panicked PanicNilDereference /\ trace run = [req])
  /\ (forall signed,
        (respond B req world).1 = (Some signed, true, None) ->
        tx_TxIn signed = [] ->
        result run = Panicked (PanicIndexOutOfRange 0 0)
        /\ trace run = [req]).
Proof.
  intros Hspend Hout Hscript req run. subst run.
  unfold SignBip322NativeSegwit. rewrite Hspend, Hout, Hscript. simpl.
  fold (bip322Hint toSpend out0). fold req.
  destruct (respond B req world) as [[[signed all] err] world'].
  simpl. split.
  - intros [= -> -> ->]. split; reflexivity.
  - intros s [= -> -> ->] Hin. simpl. rewrite Hin. split; reflexivity.
Qed.

(** X15. Whenever the script check lets a script pass, the script hint
    sent to the signer is 44 hexadecimal characters: [0014] followed by
    the encoding of the 20-byte witness program, and it decodes back to
    the script. *)
Theorem bip322Hint_script (toSpend : MsgTx) (out0 : TxOut) :
  IsPayToWitnessPubKeyHash (PkScript out0) = true ->
  let hint := ScriptPubKey (bip322Hint toSpend out0) in
  String.length hint = 44%nat
  /\ hint = "0014" +:+ hex_EncodeToString (drop 2 (PkScript out0))
  /\ length (drop 2 (PkScript out0)) = 20%nat
  /\ hex_DecodeString hint = (PkScript out0, None).
Proof.
  intros Hscript hint. subst hint. unfold bip322Hint. cbn [ScriptPubKey].
  unfold IsPayToWitnessPubKeyHash in Hscript.
  destruct (PkScript out0) as [|b0 rest]; [discriminate|].
  destruct b0; try discriminate.
  destruct rest as [|b1 program]; [discriminate|].
  destruct b1; try discriminate.
  apply Nat.eqb_eq in Hscript.
  split; [rewrite hex_EncodeToString_length; simpl; lia|].
  split; [reflexivity|]. split; [exact Hscript|].
  apply hex_decode_encode.
Qed.

End OwnershipProof.

Section KeyAccessProperties.
Context `{keys : KeyEnv}.

Lemma AddressPublicKey_trace_aux {B : KeyBackend} (world : KeyWorld B)
    (w : RpcWalletController) (a : Address) :
  ktrace (kexec (AddressPublicKey w (Some a)) world)
  = [ReqGetAddressInfo (EncodeAddress a)].
Proof.
  unfold AddressPublicKey.
  cbn [mbind KeyRpc_mbind KeyRpc_bind kcall kexec].
  destruct (krespond B _ world) as [[info err] world'].
  destruct err as [e|]; [reflexivity|].
  destruct info as [[[pubKey|]]|]; try reflexivity. cbn.
  destruct (hex_DecodeString pubKey) as [decoded [e|]]; [reflexivity|].
  destruct (ParsePubKey decoded); reflexivity.
Qed.

(** X16. [AddressPublicKey] on an address makes one request, the address
    information for the encoded address.  An error of the backend is
    returned as it is; an answer without a public key gives the error
    naming the encoded address; a public key string of odd length is
    rejected by the hexadecimal decoder, before any parsing; and when the
    backend reports the hexadecimal encoding of some bytes, the result is
    what [ParsePubKey] makes of exactly those bytes.  An answer that is
    nil without error makes the method panic. *)
Theorem AddressPublicKey_outcomes {B : KeyBackend} (world : KeyWorld B)
    (w : RpcWalletController) (a : Address) :
  let encoded := EncodeAddress a in
  let req := ReqGetAddressInfo encoded in
  let run := kexec (AddressPublicKey w (Some a)) world in
  ktrace run = [req]
  /\ (forall info e,
        (krespond B req world).1 = (info, Some e) ->
        kresult run = Returned (None, Some (KeyErr e)))
  /\ ((krespond B req world).1 = (None, None) ->
      kresult run = Panicked PanicNilDereference)
  /\ ((krespond B req world).1
      = (Some {| info_PubKey := None |}, None) ->
      kresult run = Returned (None, Some (KeyErr (ErrNoPublicKey encoded))))
  /\ (forall pubKey,
        (krespond B req world).1
        = (Some {| info_PubKey := Some pubKey |}, None) ->
        Nat.Odd (String.length pubKey) ->
        exists e, kresult run = Returned (None, Some (HexErr e)))
  /\ (forall keyBytes,
        (krespond B req world).1
        = (Some {| info_PubKey := Some (hex_EncodeToString keyBytes) |},
           None) ->
        kresult run
        = Returned ((ParsePubKey keyBytes).1,
                    KeyErr <$> (ParsePubKey keyBytes).2)).
Proof.
  intros encoded req run. subst run. unfold AddressPublicKey.
  fold encoded. cbn [mbind KeyRpc_mbind KeyRpc_bind kcall kexec]. fold req.
  destruct (krespond B req world) as [[info err] world'].
  cbn [fst]. split.
  { destruct err as [e|]; [reflexivity|].
    destruct info as [[[pubKey|]]|]; try reflexivity. cbn.
    destruct (hex_DecodeString pubKey) as [decoded [e|]]; [reflexivity|].
    destruct (ParsePubKey decoded); reflexivity. }
  split; [intros ? e [= -> ->]; reflexivity|].
  split; [intros [= -> ->]; reflexivity|].
  split; [intros [= -> ->]; reflexivity|].
  split.
  - intros pubKey [= -> ->] Hodd. cbn.
    pose proof (proj2 (hex_decode_length pubKey) Hodd) as Herr.
    destruct (hex_DecodeString pubKey) as [decoded [e|]];
      [eauto|contradiction].
  - intros keyBytes [= -> ->]. cbn. rewrite hex_decode_encode.
    destruct (ParsePubKey keyBytes); reflexivity.
Qed.

(** X17. The public-key lookup never asks the backend to export a private
    key, whatever the address and the answers.  On a nil address both
    methods panic before any request.  On an address [DumpPrivateKey] makes
    exactly one request, the export for the encoded address: an error of
    the backend is returned without a key, a WIF without error yields the
    key inside it, and an answer with neither panics. *)
Theorem key_requests {B : KeyBackend} (world : KeyWorld B)
    (w : RpcWalletController) :
  (forall address,
      Forall (fun r => isKeyExport r = false)
        (ktrace (kexec (AddressPublicKey w address) world)))
  /\ (kresult (kexec (AddressPublicKey w None) world)
      = Panicked PanicNilDereference
      /\ ktrace (kexec (AddressPublicKey w None) world) = [])
  /\ (kresult (kexec (DumpPrivateKey w None) world)
      = Panicked PanicNilDereference
      /\ ktrace (kexec (DumpPrivateKey w None) world) = [])
  /\ forall a,
      ktrace (kexec (DumpPrivateKey w (Some a)) world)
      = [ReqDumpPrivKey (EncodeAddress a)]
      /\ (forall privKey e,
            (krespond B (ReqDumpPrivKey (EncodeAddress a)) world).1
            = (privKey, Some e) ->
            kresult (kexec (DumpPrivateKey w (Some a)) world)
            = Returned (None, Some e))
      /\ (forall wif,
            (krespond B (ReqDumpPrivKey (EncodeAddress a)) world).1
            = (Some wif, None) ->
            kresult (kexec (DumpPrivateKey w (Some a)) world)
            = Returned (wif_PrivKey wif, None))
      /\ ((krespond B (ReqDumpPrivKey (EncodeAddress a)) world).1
          = (None, None) ->
          kresult (kexec (DumpPrivateKey w (Some a)) world)
          = Panicked PanicNilDereference).
Proof.
  split.
  { intros [a|]; [|constructor].
    pose proof (AddressPublicKey_trace_aux world w a) as ->.
    repeat constructor. }
  split; [split; reflexivity|]. split; [split; reflexivity|].
  intros a. unfold DumpPrivateKey.
  cbn [mbind KeyRpc_mbind KeyRpc_bind kcall kexec].
  destruct (krespond B (ReqDumpPrivKey (EncodeAddress a)) world)
    as [[privKey err] world'].
  cbn [fst]. split.
  { destruct err as [e|]; [reflexivity|].
    destruct privKey; reflexivity. }
  split; [intros ? e [= -> ->]; reflexivity|].
  split; [intros wif [= -> ->]; reflexivity|].
  intros [= -> ->]. reflexivity.
Qed.

End KeyAccessProperties.

Section HarnessSeed.

Lemma byteOfN_to_N (n : N) : (n <= 255)%N -> Byte.to_N (byteOfN n) = n.
Proof.
  intros Hn. unfold byteOfN.
  pose proof (Byte.to_of_N_option_map n) as H.
  apply N.leb_le in Hn. rewrite Hn in H.
  destruct (Byte.of_N n) as [b|]; simpl in H; congruence.
Qed.

Lemma byteOf_value (v : Z) :
  Z.of_N (Byte.to_N (Harness.byteOf v)) = v mod 256.
Proof.
  unfold Harness.byteOf. pose proof (Z.mod_pos_bound v 256 eq_refl).
  rewrite byteOfN_to_N; [apply Z2N.id; lia|].
  apply N2Z.inj_le. rewrite Z2N.id; simpl; lia.
Qed.

Lemma harnessHDSeed_unfold (id : Z) :
  Harness.harnessHDSeed id
  = Returned ([Harness.byteOf (Z.shiftr id 24);
               Harness.byteOf (Z.shiftr id 16);
               Harness.byteOf (Z.shiftr id 8); Harness.byteOf id]
              ++ drop 4 Harness.hdSeed ++ replicate 4 Byte.x00).
Proof. reflexivity. Qed.

Lemma bigEndian_digits (id : Z) :
  0 <= id < 2 ^ 32 ->
  id = 2 ^ 24 * (Z.shiftr id 24 mod 256) + 2 ^ 16 * (Z.shiftr id 16 mod 256)
       + 2 ^ 8 * (Z.shiftr id 8 mod 256) + id mod 256.
Proof.
  intros Hid. rewrite !Z.shiftr_div_pow2 by lia.
  change (2 ^ 32) with 4294967296 in Hid.
  change (2 ^ 24) with 16777216. change (2 ^ 16) with 65536.
  change (2 ^ 8) with 256.
  Z.to_euclidean_division_equations. lia.
Qed.

(** X18. The seed [GetSpendingKeyAndAddress] derives its key from is 36
    bytes long for every id: the id, most significant byte first, in
    bytes 0 to 3, where it replaces the first four bytes of the fixed
    seed; bytes 4 to 31 of the fixed seed; four zero bytes.  It is never
    the fixed seed followed by the id.  Building it never panics, so the
    function returns for any behaviour of the key libraries. *)
Theorem harnessHDSeed_layout (id : Z) :
  exists seed,
    Harness.harnessHDSeed id = Returned seed
    /\ length seed = 36%nat
    /\ take 4 seed
       = [Harness.byteOf (Z.shiftr id 24); Harness.byteOf (Z.shiftr id 16);
          Harness.byteOf (Z.shiftr id 8); Harness.byteOf id]
    /\ take 28 (drop 4 seed) = drop 4 Harness.hdSeed
    /\ drop 32 seed = replicate 4 Byte.x00
    /\ seed
       <> Harness.hdSeed
          ++ [Harness.byteOf (Z.shiftr id 24);
              Harness.byteOf (Z.shiftr id 16);
              Harness.byteOf (Z.shiftr id 8); Harness.byteOf id]
    /\ forall (ExtendedKey TestPrivateKey TestPublicKey : Type)
         (TestAddress AddressPubKey : Type) simnetParams
         NewMaster Derive ECPrivKey PubKey SerializeCompressed
         NewAddressPubKey AddressPubKeyHash,
       exists r,
         @Harness.GetSpendingKeyAndAddress ExtendedKey TestPrivateKey
           TestPublicKey TestAddress AddressPubKey simnetParams NewMaster
           Derive ECPrivKey PubKey SerializeCompressed NewAddressPubKey
           AddressPubKeyHash id
         = Returned r.
Proof.
  eexists. split; [apply harnessHDSeed_unfold|].
  split; [reflexivity|]. split; [reflexivity|]. split; [reflexivity|].
  split; [reflexivity|]. split.
  - intros H. pose proof (f_equal (drop 32) H) as Htail.
    pose proof (f_equal (take 1) H) as Hhead. simpl in Htail, Hhead.
    injection Htail as H24 _ _ _. rewrite <- H24 in Hhead.
    discriminate Hhead.
  - intros. unfold Harness.GetSpendingKeyAndAddress.
    rewrite harnessHDSeed_unfold.
    destruct (NewMaster _ _); [|eauto].
    destruct (Derive _ _); [|eauto].
    destruct (ECPrivKey _); [|eauto].
    destruct (Harness.keyToAddr _ _ _ _ _ _); eauto.
Qed.

(** X19. For an id that fits in 32 bits, the first four bytes of the seed
    read as a big-endian number give the id back; so two such ids with the
    same seed are equal. *)
Theorem harnessHDSeed_injective (id1 id2 : Z) :
  0 <= id1 < 2 ^ 32 -> 0 <= id2 < 2 ^ 32 ->
  (forall seed b0 b1 b2 b3 rest,
      Harness.harnessHDSeed id1 = Returned seed ->
      seed = b0 :: b1 :: b2 :: b3 :: rest ->
      id1 = 2 ^ 24 * Z.of_N (Byte.to_N b0) + 2 ^ 16 * Z.of_N (Byte.to_N b1)
            + 2 ^ 8 * Z.of_N (Byte.to_N b2) + Z.of_N (Byte.to_N b3))
  /\ (Harness.harnessHDSeed id1 = Harness.harnessHDSeed id2 -> id1 = id2).
Proof.
  intros H1 H2. split.
  - intros seed b0 b1 b2 b3 rest. rewrite harnessHDSeed_unfold.
    intros [= <-] [= <- <- <- <- _]. rewrite !byteOf_value.
    apply bigEndian_digits, H1.
  - rewrite !harnessHDSeed_unfold. intros [= E24 E16 E8 E0].
    apply (f_equal (fun b => Z.of_N (Byte.to_N b))) in E24, E16, E8, E0.
    rewrite !byteOf_value in E24, E16, E8, E0.
    rewrite (bigEndian_digits H1), (bigEndian_digits H2). congruence.
Qed.

End HarnessSeed.

(** * The further properties on the sample environment *)

Lemma NewRpcWalletControllerFromArgs_connection_witness :
  NewRpcWalletControllerFromArgs (env := Sample.env)
    "127.0.0.1:18554" "user" "pass" "mainnet" "secret" 1
    (Some {| Name := "regtest"; Net := 3669344250 |}) false "raw" "rpc.cert"
  = Returned (Some (@mkRpcWalletController Sample.env tt "secret" "regtest" 1),
              None).
Proof.
  exact (proj2 (@NewRpcWalletControllerFromArgs_connection Sample.env
    "127.0.0.1:18554" "user" "pass" "mainnet" "secret" 1
    (Some {| Name := "regtest"; Net := 3669344250 |}) false "raw" "rpc.cert")
    [] (or_intror (conj eq_refl eq_refl))).
Defined.

Lemma NewRpcWalletControllerFromArgs_results_witness :
  exists r,
    NewRpcWalletControllerFromArgs (env := Sample.env)
      "127.0.0.1:18554" "user" "pass" "mainnet" "secret" 1
      (Some {| Name := "regtest"; Net := 3669344250 |}) true "raw" "rpc.cert"
    = Returned r.
Proof.
  pose proof (@NewRpcWalletControllerFromArgs_results Sample.env
    "127.0.0.1:18554" "user" "pass" "mainnet" "secret" 1
    (Some {| Name := "regtest"; Net := 3669344250 |}) true "raw" "rpc.cert")
    as H.
  cbv zeta in H. destruct H as (_ & _ & _ & H). exact (H _ eq_refl).
Defined.

Lemma NewRpcWalletController_from_config_witness :
  NewRpcWalletController (env := Sample.env)
    (Some {| cfg_WalletRpcConfig := None;
             cfg_ActiveNetParams := {| Name := "simnet"; Net := 303307798 |};
             cfg_WalletConfig := Some {| wc_WalletPass := "secret" |};
             cfg_BtcNodeBackendConfig :=
               Some {| bnb_ActiveWalletBackend := 1 |} |})
  = Panicked PanicNilDereference
  /\ NetworkName (@mkRpcWalletController Sample.env tt "secret" "simnet" 1)
     = "simnet"
  /\ walletPassphrase
       (@mkRpcWalletController Sample.env tt "secret" "simnet" 1)
     = "secret".
Proof.
  split.
  - exact (proj1 (@NewRpcWalletController_from_config Sample.env
      (Some {| cfg_WalletRpcConfig := None;
               cfg_ActiveNetParams :=
                 {| Name := "simnet"; Net := 303307798 |};
               cfg_WalletConfig := Some {| wc_WalletPass := "secret" |};
               cfg_BtcNodeBackendConfig :=
                 Some {| bnb_ActiveWalletBackend := 1 |} |})) eq_refl).
  - destruct (proj2 (proj2 (@NewRpcWalletController_from_config Sample.env
      (Some {| cfg_WalletRpcConfig :=
                 Some {| wrc_Host := "127.0.0.1:18554"; wrc_User := "user";
                         wrc_Pass := "pass"; wrc_DisableTls := true;
                         wrc_RawRPCWalletCert := "raw";
                         wrc_RPCWalletCert := "rpc.cert" |};
               cfg_ActiveNetParams :=
                 {| Name := "simnet"; Net := 303307798 |};
               cfg_WalletConfig := Some {| wc_WalletPass := "secret" |};
               cfg_BtcNodeBackendConfig :=
                 Some {| bnb_ActiveWalletBackend := 1 |} |})))
      _ _ _ _ eq_refl eq_refl eq_refl eq_refl) as [_ H].
    destruct (H (@mkRpcWalletController Sample.env tt "secret" "simnet" 1)
                None eq_refl) as (_ & Hname & Hpass & _).
    split; assumption.
Defined.

Lemma UnlockWallet_after_construction_witness :
  exec (B := Sample.scripted ([], None) (None, false, None) (None, 0, None))
    (UnlockWallet
       (@mkRpcWalletController Sample.env tt "secret" "regtest" 1) 3) tt
  = mkRun
      (B := Sample.scripted ([], None) (None, false, None) (None, 0, None))
      (Returned None) [ReqWalletPassphrase "secret" 3] tt.
Proof.
  exact (@UnlockWallet_after_construction Sample.env
    (Sample.scripted ([], None) (None, false, None) (None, 0, None)) tt
    "127.0.0.1:18554" "user" "pass" "mainnet" "secret" 1
    (Some {| Name := "regtest"; Net := 3669344250 |}) true "raw" "rpc.cert"
    _ None 3 eq_refl).
Defined.

Lemma TxDetails_request_witness :
  trace (exec
    (B := Sample.scripted ([], None) (None, false, None) (None, 0, None))
    (TxDetails (Sample.controller 1) (Some 5) [Byte.x6a]) tt)
  = [ReqConfDetailsFromTxIndex
       {| cr_TxID := Some 5; cr_PkScript := [Byte.x6a] |}
       "No information available about transaction"].
Proof.
  exact (proj2 (@TxDetails_request Sample.env
    (Sample.scripted ([], None) (None, false, None) (None, 0, None)) tt
    (Sample.controller 1) (Some 5) [Byte.x6a] _ eq_refl) eq_refl).
Defined.

Lemma TxDetails_found_sound_witness :
  exists req msg state,
    trace (exec
      (B := Sample.scripted ([], None) (None, false, None)
              (Some {| BlockHash := 77; BlockHeight := 101; TxIndex := 2 |},
               TxFoundManually, None))
      (TxDetails (Sample.controller 0) (Some 5) [Byte.x6a]) tt)
    = [ReqConfDetailsFromTxIndex req msg]
    /\ (state = TxFoundIndex \/ state = TxFoundManually).
Proof.
  destruct (@TxDetails_found_sound Sample.env
    (Sample.scripted ([], None) (None, false, None)
       (Some {| BlockHash := 77; BlockHeight := 101; TxIndex := 2 |},
        TxFoundManually, None))
    tt (Sample.controller 0) (Some 5) [Byte.x6a] _ TxInChain None eq_refl)
    as (_ & req & msg & state & Htrace & _ & Hstate); [discriminate|].
  exists req, msg, state. split; [exact Htrace|].
  destruct Hstate as [[Hs _]|[_ Hs]]; [discriminate Hs|exact Hs].
Defined.

Lemma TxDetails_panics_only_on_unknown_state_witness :
  exists req msg res state,
    (respond
       (Sample.scripted ([], None) (None, false, None) (None, 9, None))
       (ReqConfDetailsFromTxIndex req msg) tt).1 = (res, state, None)
    /\ state <> TxFoundIndex.
Proof.
  destruct (proj1 (@TxDetails_panics_only_on_unknown_state Sample.env
    (Sample.scripted ([], None) (None, false, None) (None, 9, None))
    tt (Sample.controller 0)) (Some 5) [Byte.x6a]
    (PanicUnknownNotifierState 9) eq_refl)
    as (req & msg & res & state & _ & Hanswer & _ & _ & _ & _ & Hne & _).
  exists req, msg, res, state. split; assumption.
Defined.

Lemma CreateAndSignTx_build_failure_witness :
  exec (B := Sample.scripted (Sample.snapshot, None) (None, false, None)
               (None, 0, None))
    (CreateAndSignTx (Sample.controller 0) Sample.payment 10 None) tt
  = mkRun
      (B := Sample.scripted (Sample.snapshot, None) (None, false, None)
              (None, 0, None))
      (Returned (None, Some (External "unsupported address type")))
      [ReqListUnspent] tt.
Proof.
  exact (@CreateAndSignTx_build_failure Sample.env
    (Sample.scripted (Sample.snapshot, None) (None, false, None)
       (None, 0, None))
    tt (Sample.controller 0) Sample.payment 10 None None
    (External "unsupported address type") eq_refl).
Defined.

Lemma CreateAndSignTx_requests_witness :
  length (trace (exec
    (B := Sample.scripted (Sample.snapshot, None)
            (Some Sample.signedTx, true, None) (None, 0, None))
    (CreateAndSignTx (Sample.controller 1) Sample.payment 10
       (Some "bcrt1q")) tt)) = 2%nat.
Proof.
  pose proof (@CreateAndSignTx_requests Sample.env
    (Sample.scripted (Sample.snapshot, None)
       (Some Sample.signedTx, true, None) (None, 0, None))
    tt (Sample.controller 1) Sample.payment 10 (Some "bcrt1q") _ eq_refl)
    as H.
  cbv zeta in H. destruct H as (_ & H & _). rewrite (H eq_refl).
  reflexivity.
Defined.

Lemma SignBip322NativeSegwit_before_the_check_witness :
  SignBip322NativeSegwit (Sample.controller 0) [] None
  = Done (None,
      Some (ErrorfW "failed to bip322 to spend tx: "
              (External "unsupported address type"))).
Proof.
  exact (proj1 (@SignBip322NativeSegwit_before_the_check Sample.env
    (Sample.controller 0) [] None) None _ eq_refl).
Defined.

Lemma SignBip322NativeSegwit_unchecked_answer_witness :
  result (exec
    (B := Sample.scripted ([], None)
            (Some {| Version := 0; tx_TxIn := []; tx_TxOut := [];
                     LockTime := 0 |}, true, None) (None, 0, None))
    (SignBip322NativeSegwit (Sample.controller 0) [] (Some "bcrt1q")) tt)
  = Panicked (PanicIndexOutOfRange 0 0).
Proof.
  pose proof (@SignBip322NativeSegwit_unchecked_answer Sample.env
    (Sample.controller 0) [] (Some "bcrt1q") (Sample.toSpendTx "bcrt1q")
    {| Value := 0; PkScript := Sample.scriptOf "bcrt1q" |}
    (Sample.scripted ([], None)
       (Some {| Version := 0; tx_TxIn := []; tx_TxOut := [];
                LockTime := 0 |}, true, None) (None, 0, None))
    tt eq_refl eq_refl eq_refl) as H.
  cbv zeta in H. destruct H as [_ H].
  exact (proj1 (H _ eq_refl eq_refl)).
Defined.

Lemma bip322Hint_script_witness :
  ScriptPubKey
    (bip322Hint (env := Sample.env) (Sample.toSpendTx "bcrt1q")
       {| Value := 0; PkScript := Sample.scriptOf "bcrt1q" |})
  = "0014"
    +:+ hex_EncodeToString
          (drop 2 (PkScript {| Value := 0;
                               PkScript := Sample.scriptOf "bcrt1q" |})).
Proof.
  pose proof (@bip322Hint_script Sample.env (Sample.toSpendTx "bcrt1q")
    {| Value := 0; PkScript := Sample.scriptOf "bcrt1q" |} eq_refl) as H.
  cbv zeta in H. exact (proj1 (proj2 H)).
Defined.

Lemma AddressPublicKey_outcomes_witness :
  kresult (kexec
    (B := KeySample.scripted
            (Some {| info_PubKey :=
                       Some (hex_EncodeToString KeySample.compressedKey) |},
             None)
            (None, Some (External "wallet is locked")))
    (AddressPublicKey (keys := KeySample.keys) (Sample.controller 0)
       (Some "bcrt1q")) tt)
  = Returned (Some KeySample.compressedKey, None).
Proof.
  pose proof (@AddressPublicKey_outcomes Sample.env KeySample.keys
    (KeySample.scripted
       (Some {| info_PubKey :=
                  Some (hex_EncodeToString KeySample.compressedKey) |},
        None)
       (None, Some (External "wallet is locked")))
    tt (Sample.controller 0) "bcrt1q") as H.
  cbv zeta in H. destruct H as (_ & _ & _ & _ & _ & H).
  exact (H KeySample.compressedKey eq_refl).
Defined.

Lemma key_requests_witness :
  kresult (kexec
    (B := KeySample.scripted (None, None) (Some KeySample.wif, None))
    (DumpPrivateKey (keys := KeySample.keys) (Sample.controller 0)
       (Some "bcrt1q")) tt)
  = Returned (Some KeySample.privateKey, None)
  /\ kresult (kexec
       (B := KeySample.scripted (None, None) (Some KeySample.wif, None))
       (DumpPrivateKey (keys := KeySample.keys) (Sample.controller 0) None)
       tt)
     = Panicked PanicNilDereference.
Proof.
  destruct (@key_requests Sample.env KeySample.keys
    (KeySample.scripted (None, None) (Some KeySample.wif, None))
    tt (Sample.controller 0)) as (_ & _ & [Hnil _] & H).
  destruct (H "bcrt1q") as (_ & _ & Hwif & _).
  split; [exact (Hwif _ eq_refl)|exact Hnil].
Defined.

Lemma harnessHDSeed_injective_witness :
  258 = 2 ^ 24 * 0 + 2 ^ 16 * 0 + 2 ^ 8 * 1 + 2.
Proof.
  assert (H : 0 <= 258 < 2 ^ 32) by (split; [discriminate|reflexivity]).
  exact (proj1 (harnessHDSeed_injective H H) _ Byte.x00 Byte.x00 Byte.x01
           Byte.x02 _ eq_refl eq_refl).
Defined.
